(** * Explorer viewer: data source, inline-edit renderer, exclude filter, sorter

    A shallow embedding of
    [src/vs/workbench/parts/files/electron-browser/views/explorerViewer.ts]
    and the properties of its four live classes: [ExplorerDataSource],
    [FilesRenderer] (the inline rename/create input box), [FilesFilter] and
    [FileSorter].

    Conventions.
    - Injected services ([@IFileService], [@IExplorerService], ...) are records
      of functions, passed to the class record like constructor arguments.
    - Functions imported from other modules ([glob.parse], [path.relative],
      [normalize], [compareFileNames], ...) are members of type classes, so
      that every result holds for any implementation of them.
    - JavaScript numbers that are integers here (folder indices, comparator
      results, time stamps, delays) are [Z].
    - Side effects are threaded explicitly: a small state monad for the data
      source, a heap of configuration objects plus the per-root cache for the
      filter, and an event-driven session state for the input box. *)

From stdpp Require Import base option list strings gmap.
From Stdlib Require Import ZArith Lia.

Set Warnings "-register-all".

Open Scope Z_scope.
Open Scope string_scope.
Open Scope list_scope.

(** ** Shared data model *)

(** The parts of a [URI] this file reads: [resource.path] and
    [resource.toString()]. *)
Record URI := mkURI {
  scheme : string;
  authority : string;
  path : string
}.

(** [URI.toString] lives in [vs/base/common/uri]; it is kept abstract. *)
Class UriLib := {
  uri_toString : URI -> string
}.

(** A value a JavaScript conditional tests: a string result is truthy when it
    is neither [null]/[undefined] nor the empty string. *)
Definition truthy (r : option string) : bool :=
  match r with
  | Some s => negb (String.eqb s "")
  | None => false
  end.

(** [IEditableData]: the validator and the completion callback of an edit
    session.  The callback's effect is recorded by the session itself. *)
Record IEditableData := mkEditable {
  validationMessage : string -> option string
}.

(** [ExplorerItem], flattened to what the viewer reads.  [stat.root.resource]
    is [root_resource]; [stat.parent.getChild(name)] is a lookup in
    [parent_children] (child name to child resource).  [mtime] is an optional
    number on the item. *)
Record ExplorerItem := mkItem {
  resource : URI;
  name : string;
  isDirectory : bool;
  isRoot : bool;
  mtime : option Z;
  root_resource : URI;
  parent_children : gmap string URI
}.

(** [ExplorerItem | ExplorerItem[]], the element type of the data source. *)
Inductive Element :=
  | Single (item : ExplorerItem)
  | Roots (items : list ExplorerItem).

(** [Array.isArray(element)]. *)
Definition isArray (element : Element) : bool :=
  match element with
  | Roots _ => true
  | Single _ => false
  end.

(** [element instanceof ExplorerItem]. *)
Definition instanceofExplorerItem (element : Element) : bool :=
  match element with
  | Single _ => true
  | Roots _ => false
  end.

(** ** ExplorerDataSource *)

Module ExplorerDataSource.

Definition Error := string.

(** A promise, identified with the way it settles. *)
Inductive Settled (A : Type) :=
  | Fulfilled (value : A)
  | Rejected (reason : Error).
Arguments Fulfilled {A} value.
Arguments Rejected {A} reason.

(** What the notification and progress services have been asked to do. *)
Record World := mkWorld {
  notifications : list Error;
  progress_delays : list Z
}.

Definition M (A : Type) : Type := World -> A * World.

Definition ret {A} (a : A) : M A := fun w => (a, w).

Definition bind {A B} (m : M A) (k : A -> M B) : M B :=
  fun w => let (a, w') := m w in k a w'.

Notation "x <- m ;; k" := (bind m (fun x => k))
  (at level 100, m at next level, right associativity).
Notation "m ;;; k" := (bind m (fun _ => k))
  (at level 100, right associativity).

(** [notificationService.error(e)]. *)
Definition notify_error (e : Error) : M unit :=
  fun w => (tt, {| notifications := notifications w ++ [e];
                   progress_delays := progress_delays w |}).

(** [progressService.showWhile(promise, delay)]. *)
Definition showWhile (delay : Z) : M unit :=
  fun w => (tt, {| notifications := notifications w;
                   progress_delays := progress_delays w ++ [delay] |}).

(** [promise.then(undefined, onRejected)]: a fulfilled promise passes through,
    a rejected one settles with what the handler returns. *)
Definition then_rejected {A} (p : Settled A) (onRejected : Error -> M A)
  : M (Settled A) :=
  match p with
  | Fulfilled v => ret (Fulfilled v)
  | Rejected e => v <- onRejected e ;; ret (Fulfilled v)
  end.

(** The injected services the data source reads. *)
Record Services := mkServices {
  fetchChildren : ExplorerItem -> Settled (list ExplorerItem);
  isRestored : bool
}.

(** [Array.isArray(element) || element.isDirectory]; the right operand is
    only read for a single item. *)
Definition hasChildren (element : Element) : bool :=
  isArray element ||
  match element with
  | Single item => isDirectory item
  | Roots _ => false
  end.

(** [getChildren], run until the returned promise has settled.  The progress
    indicator is requested when the call returns; the rejection handler runs
    when the fetch settles. *)
Definition getChildren (this : Services) (element : Element)
  : M (Settled (list ExplorerItem)) :=
  match element with
  | Roots items => ret (Fulfilled items)
  | Single item =>
      showWhile (if isRestored this then 800 else 3200) ;;;
      then_rejected (fetchChildren this item)
        (fun e =>
           (if negb (instanceofExplorerItem element && isRoot item)
            then notify_error e else ret tt) ;;;
           ret [])
  end.

End ExplorerDataSource.

(** ** FilesRenderer: the inline input box of an edit session *)

Module FilesRenderer.

Inductive Key := Enter | Escape | OtherKey.

(** The members of [toDispose], in the order of the array literal. *)
Inductive Disposable :=
  | DInputBox
  | DKeyDownListener
  | DBlurListener
  | DLabel
  | DStyler.

#[export] Instance Disposable_eq_dec : EqDecision Disposable.
Proof. solve_decision. Defined.

Definition toDispose : list Disposable :=
  [DInputBox; DKeyDownListener; DBlurListener; DLabel; DStyler].

(** What the browser delivers to the input element.  [nested] are the events
    it dispatches synchronously while the handler of this event is disposing
    the input box (an element that is torn down can lose focus on the spot):
    they run to completion before the handler resumes. *)
Inductive DomEvent :=
  | KeyDown (k : Key) (nested : list DomEvent)
  | Blur (nested : list DomEvent)
  | Input (text : string).

(** The state one call of [renderInputBox] creates and its closures share. *)
Record Session := mkSession {
  value : string;                    (* inputBox.value *)
  didCall : bool;                    (* the flag inside once(...) *)
  disposed : list Disposable;        (* disposed so far, oldest first *)
  labelHidden : bool;                (* label.element.style.display = 'none' *)
  labelAttached : bool;              (* label.element is a child of container *)
  finished : list (string * bool)    (* calls of editableData.onFinish *)
}.

Definition is_disposed (d : Disposable) (s : Session) : bool :=
  bool_decide (d ∈ disposed s).

Definition set_value (v : string) (s : Session) : Session :=
  mkSession v (didCall s) (disposed s) (labelHidden s) (labelAttached s)
    (finished s).

Definition set_didCall (s : Session) : Session :=
  mkSession (value s) true (disposed s) (labelHidden s) (labelAttached s)
    (finished s).

Definition add_disposed (d : Disposable) (s : Session) : Session :=
  mkSession (value s) (didCall s) (disposed s ++ [d]) (labelHidden s)
    (labelAttached s) (finished s).

Definition hide_label (s : Session) : Session :=
  mkSession (value s) (didCall s) (disposed s) true (labelAttached s)
    (finished s).

Definition detach_label (s : Session) : Session :=
  mkSession (value s) (didCall s) (disposed s) (labelHidden s) false
    (finished s).

Definition call_onFinish (v : string) (success : bool) (s : Session) : Session :=
  mkSession (value s) (didCall s) (disposed s) (labelHidden s)
    (labelAttached s) (finished s ++ [(v, success)]).

(** The [validation] option handed to the input box: no message, no error. *)
Definition validation (editableData : IEditableData) (v : string)
  : option string :=
  let content := validationMessage editableData v in
  if negb (truthy content) then None else content.

(** Modelled from the spec: [InputBox.validate] of
    [vs/base/browser/ui/inputbox/inputBox] is not part of this file; it runs
    the supplied validator on the current text, and a non-null result is an
    error that blocks the commit. *)
Definition validate (editableData : IEditableData) (s : Session) : bool :=
  match validation editableData (value s) with
  | None => true
  | Some _ => false
  end.

(** Modelled from the spec: [InputBox.isInputValid] of the same module is
    not part of this file; it is the current validity of the text, by the
    supplied validator. *)
Definition isInputValid (editableData : IEditableData) (s : Session) : bool :=
  match validation editableData (value s) with
  | None => true
  | Some _ => false
  end.

(** [dispose(toDispose)]: each member in turn.  [deliver] runs the events the
    browser dispatches while the input box goes away. *)
Definition dispose_one (deliver : Session -> Session) (s : Session)
  (d : Disposable) : Session :=
  let s' := add_disposed d s in
  match d with
  | DInputBox => deliver s'
  | _ => s'
  end.

Definition dispose (deliver : Session -> Session) (ds : list Disposable)
  (s : Session) : Session :=
  fold_left (dispose_one deliver) ds s.

(** The body of the function handed to [once].  It is an async function
    without an await: it runs at once, and a throwing [removeChild] (the label
    element is not a child of the container) ends it before [onFinish]. *)
Definition done_body (deliver : Session -> Session) (success blur : bool)
  (s : Session) : Session :=
  let s := hide_label s in
  let v := value s in
  let s := dispose deliver toDispose s in
  if labelAttached s
  then call_onFinish v success (detach_label s)
  else s.

(** Modelled from the spec: [once] of [vs/base/common/functional] is not part
    of this file; it runs the wrapped function on the first call only, the
    flag being raised before the function starts. *)
Definition once (fn : Session -> Session) (s : Session) : Session :=
  if didCall s then s else fn (set_didCall s).

Definition done (deliver : Session -> Session) (success blur : bool)
  : Session -> Session :=
  once (done_body deliver success blur).

(** One event, through the listeners that are still registered. *)
Fixpoint dispatch (editableData : IEditableData) (e : DomEvent) (s : Session)
  : Session :=
  match e with
  | KeyDown k nested =>
      if is_disposed DKeyDownListener s then s
      else
        let deliver := fun s' =>
          fold_left (fun acc e' => dispatch editableData e' acc) nested s' in
        match k with
        | Enter =>
            if validate editableData s then done deliver true false s else s
        | Escape => done deliver false false s
        | OtherKey => s
        end
  | Blur nested =>
      if is_disposed DBlurListener s then s
      else
        let deliver := fun s' =>
          fold_left (fun acc e' => dispatch editableData e' acc) nested s' in
        done deliver (isInputValid editableData s) true s
  | Input text =>
      if is_disposed DInputBox s then s else set_value text s
  end.

Definition run (editableData : IEditableData) (es : list DomEvent)
  (s : Session) : Session :=
  fold_left (fun acc e => dispatch editableData e acc) es s.

(** The session right after [renderInputBox(container, stat, editableData)]:
    the box holds [stat.name || ''], the label sits in the container. *)
Definition renderInputBox (stat : ExplorerItem) : Session :=
  {| value := name stat;
     didCall := false;
     disposed := [];
     labelHidden := false;
     labelAttached := true;
     finished := [] |}.

(** A session nobody has completed: nothing is disposed, the label is shown
    and attached, [onFinish] has not been called. *)
Definition live (s : Session) : Prop :=
  didCall s = false /\ disposed s = [] /\ labelAttached s = true /\
  labelHidden s = false /\ finished s = [].

(** A session completed with [onFinish(v, success)], called once: every
    member of [toDispose] is disposed, the label is hidden and detached. *)
Definition completed (s : Session) (v : string) (success : bool) : Prop :=
  didCall s = true /\ disposed s = toDispose /\ labelAttached s = false /\
  labelHidden s = true /\ finished s = [(v, success)].

End FilesRenderer.

(** ** FilesFilter: the per-root exclude cache and the visibility filter *)

Module FilesFilter.

Inductive TreeVisibility := Hidden | Visible | Recurse.

(** A value of [glob.IExpression]: [boolean | SiblingClause]. *)
Inductive GlobValue :=
  | GBool (b : bool)
  | GWhen (when : string).

#[export] Instance GlobValue_eq_dec : EqDecision GlobValue.
Proof. solve_decision. Defined.

(** [glob.IExpression]: pattern to value; the order of keys is immaterial. *)
Abbreviation IExpression := (gmap string GlobValue).

(** [glob.ParsedExpression]: the path, the base name and the sibling probe go
    in, the matching pattern or [null] comes out. *)
Definition ParsedExpression : Type :=
  string -> string -> (string -> bool) -> option string.

Class GlobLib := {
  glob_parse : IExpression -> ParsedExpression
}.

Class PathLib := {
  path_relative : string -> string -> string;
  normalize : string -> bool -> string
}.

(** Expression objects live in a heap, so that the configuration's own object
    and the copy the cache keeps are told apart.  A reference is an index, a
    new object goes to the end, and a cell holds the whole object tree. *)
Abbreviation Loc := nat.
Abbreviation Heap := (list IExpression).

Definition alloc (h : Heap) (v : IExpression) : Loc * Heap :=
  (length h, h ++ [v]).

Definition deref (h : Heap) (l : Loc) : IExpression :=
  default ∅ (h !! l).

(** Modelled from the spec: [equals] of [vs/base/common/objects] is not part
    of this file; it is the deep structural comparison of two objects. *)
Definition equals (h : Heap) (one other : Loc) : bool :=
  bool_decide (deref h one = deref h other).

(** Modelled from the spec: [deepClone] of [vs/base/common/objects] is not
    part of this file; it builds a new object with the same structure. *)
Definition deepClone (h : Heap) (obj : Loc) : Loc * Heap :=
  alloc h (deref h obj).

Record CachedParsedExpression := mkCached {
  original : Loc;
  parsed : ParsedExpression
}.

Record WorkspaceFolder := mkFolder {
  uri : URI;
  folder_name : string;
  index : Z
}.

(** [IFilesConfiguration], down to [files.exclude]; each level may be
    missing. *)
Record FilesSection := mkFiles {
  exclude : option Loc
}.

Record IFilesConfiguration := mkConfiguration {
  files : option FilesSection
}.

(** The injected services: [contextService.getWorkspace().folders],
    [configurationService.getValue({ resource })] and
    [explorerService.getEditableData]. *)
Record Services := mkServices {
  folders : list WorkspaceFolder;
  getValue : URI -> option IFilesConfiguration;
  getEditableData : ExplorerItem -> option IEditableData
}.

(** The mutable state: the filter's own map and the object heap. *)
Record State := mkState {
  hiddenExpressionPerRoot : gmap string CachedParsedExpression;
  heap : Heap
}.

(** [(configuration && configuration.files && configuration.files.exclude)
    || Object.create(null)]. *)
Definition read_excludes (this : Services) (h : Heap) (folder : WorkspaceFolder)
  : Loc * Heap :=
  let configuration := getValue this (uri folder) in
  match (configuration ≫= files) ≫= exclude with
  | Some obj => (obj, h)
  | None => alloc h ∅
  end.

(** One turn of the [forEach] callback. *)
Definition update_folder `{UriLib, GlobLib} (this : Services)
  (acc : bool * State) (folder : WorkspaceFolder) : bool * State :=
  let '(needsRefresh, st) := acc in
  let '(excludesConfig, h1) := read_excludes this (heap st) folder in
  let key := uri_toString (uri folder) in
  let needsRefresh :=
    if negb needsRefresh then
      match hiddenExpressionPerRoot st !! key with
      | None => true
      | Some cached => negb (equals h1 (original cached) excludesConfig)
      end
    else needsRefresh in
  let '(excludesConfigCopy, h2) := deepClone h1 excludesConfig in
  let entry := {| original := excludesConfigCopy;
                  parsed := glob_parse (deref h2 excludesConfigCopy) |} in
  (needsRefresh,
   {| hiddenExpressionPerRoot := <[key := entry]> (hiddenExpressionPerRoot st);
      heap := h2 |}).

Definition updateConfiguration `{UriLib, GlobLib} (this : Services) (st : State)
  : bool * State :=
  fold_left (update_folder this) (folders this) (false, st).

(** The raw exclude expression the configuration holds for a folder, read
    from the heap [h]: the contents of [files.exclude], or the empty
    expression when a level is missing. *)
Definition raw_excludes (this : Services) (h : Heap) (folder : WorkspaceFolder)
  : IExpression :=
  match (getValue this (uri folder) ≫= files) ≫= exclude with
  | Some obj => deref h obj
  | None => ∅
  end.

(** A folder whose cache entry is out of date: there is none, or its raw
    expression differs from the one the configuration holds now. *)
Definition stale `{UriLib} (this : Services) (st : State)
  (folder : WorkspaceFolder) : Prop :=
  match hiddenExpressionPerRoot st !! uri_toString (uri folder) with
  | None => True
  | Some cached =>
      deref (heap st) (original cached) <> raw_excludes this (heap st) folder
  end.

(** No dangling references: what the cache and the configuration refer to is
    in the heap. *)
Definition cache_closed (st : State) : Prop :=
  forall key cached,
    hiddenExpressionPerRoot st !! key = Some cached ->
    (original cached < length (heap st))%nat.

Definition config_closed (this : Services) (st : State) : Prop :=
  forall folder obj,
    folder ∈ folders this ->
    (getValue this (uri folder) ≫= files) ≫= exclude = Some obj ->
    (obj < length (heap st))%nat.

(** Folders are told apart by the string of their URI. *)
Definition keyed_by_uri `{UriLib} (fs : list WorkspaceFolder) : Prop :=
  forall f g, f ∈ fs -> g ∈ fs ->
    uri_toString (uri f) = uri_toString (uri g) -> uri f = uri g.

(** A call of a compiled matcher, as seen from outside. *)
Record MatcherCall := mkCall {
  call_root : string;
  call_path : string;
  call_basename : string
}.

(** The filter's answer ([true] is visible) and the matcher calls it made. *)
Record FilterRun := mkRun {
  visible : bool;
  matcher_calls : list MatcherCall
}.

(** [name => !!stat.parent.getChild(name)]. *)
Definition sibling_probe (stat : ExplorerItem) : string -> bool :=
  fun name => bool_decide (is_Some (parent_children stat !! name)).

(** [normalize(path.relative(stat.root.resource.path, stat.resource.path),
    true)]. *)
Definition relative_path `{PathLib} (stat : ExplorerItem) : string :=
  normalize (path_relative (path (root_resource stat)) (path (resource stat)))
    true.

(** The record of calling the matcher of the item's root on the item. *)
Definition the_call `{UriLib, PathLib} (stat : ExplorerItem) : MatcherCall :=
  {| call_root := uri_toString (root_resource stat);
     call_path := relative_path stat;
     call_basename := name stat |}.

Definition filter `{UriLib, PathLib} (this : Services) (st : State)
  (stat : ExplorerItem) (parentVisibility : TreeVisibility) : FilterRun :=
  match parentVisibility with
  | Hidden => {| visible := false; matcher_calls := [] |}
  | _ =>
      if bool_decide (is_Some (getEditableData this stat)) || isRoot stat
      then {| visible := true; matcher_calls := [] |} (* always visible *)
      else
        let key := uri_toString (root_resource stat) in
        match hiddenExpressionPerRoot st !! key with
        | Some cached =>
            let call := the_call stat in
            if truthy (parsed cached (relative_path stat) (name stat)
                         (sibling_probe stat))
            then {| visible := false; matcher_calls := [call] |}
            else {| visible := true; matcher_calls := [call] |}
        | None => {| visible := true; matcher_calls := [] |}
        end
  end.

End FilesFilter.

(** ** FileSorter *)

Module FileSorter.

Import FilesFilter (WorkspaceFolder, index).

Inductive SortOrder :=
  | SortDefault
  | SortMixed
  | SortFilesFirst
  | SortType
  | SortModified.

(** [compareFileNames] and [compareFileExtensions] of
    [vs/base/common/comparers]. *)
Class Comparers := {
  compareFileNames : string -> string -> Z;
  compareFileExtensions : string -> string -> Z
}.

(** [explorerService.sortOrder] and [contextService.getWorkspaceFolder]. *)
Record Services := mkServices {
  sortOrder : SortOrder;
  getWorkspaceFolder : URI -> option WorkspaceFolder
}.

(** [a !== b] and [a < b] on optional numbers: a missing operand makes the
    comparison [<] false. *)
Definition strict_neq (a b : option Z) : bool :=
  negb (bool_decide (a = b)).

Definition less_than (a b : option Z) : bool :=
  match a, b with
  | Some x, Some y => Z.ltb x y
  | _, _ => false
  end.

(** The first [switch]: [Some r] is [return r], [None] is [break]. *)
Definition sort_directories `{Comparers} (order : SortOrder)
  (statA statB : ExplorerItem) : option Z :=
  match order with
  | SortType =>
      if isDirectory statA && negb (isDirectory statB) then Some (-1)
      else if isDirectory statB && negb (isDirectory statA) then Some 1
      else if isDirectory statA && isDirectory statB
      then Some (compareFileNames (name statA) (name statB))
      else None
  | SortFilesFirst =>
      if isDirectory statA && negb (isDirectory statB) then Some 1
      else if isDirectory statB && negb (isDirectory statA) then Some (-1)
      else None
  | SortMixed => None
  | _ =>
      if isDirectory statA && negb (isDirectory statB) then Some (-1)
      else if isDirectory statB && negb (isDirectory statA) then Some 1
      else None
  end.

(** The second [switch]. *)
Definition sort_files `{Comparers} (order : SortOrder)
  (statA statB : ExplorerItem) : Z :=
  match order with
  | SortType => compareFileExtensions (name statA) (name statB)
  | SortModified =>
      if strict_neq (mtime statA) (mtime statB)
      then (if less_than (mtime statA) (mtime statB) then 1 else -1)
      else compareFileNames (name statA) (name statB)
  | _ => compareFileNames (name statA) (name statB)
  end.

(** [compare]; [None] is the [TypeError] of reading [index] from the [null]
    that [getWorkspaceFolder] returns for a resource outside every folder. *)
Definition compare `{Comparers} (this : Services) (statA statB : ExplorerItem)
  : option Z :=
  if isRoot statA then
    if isRoot statB then
      folderA ← getWorkspaceFolder this (resource statA);
      folderB ← getWorkspaceFolder this (resource statB);
      Some (index folderA - index folderB)
    else Some (-1)
  else if isRoot statB then Some 1
  else
    let order := sortOrder this in
    match sort_directories order statA statB with
    | Some r => Some r
    | None => Some (sort_files order statA statB)
    end.

End FileSorter.

(** ** Concrete services and items, for the examples *)

Module Examples.

Definition file_uri (p : string) : URI :=
  {| scheme := "file"; authority := ""; path := p |}.

Definition plain_uris : UriLib :=
  {| uri_toString := fun u =>
       String.append (scheme u)
         (String.append "://" (String.append (authority u) (path u))) |}.

(** Paths of the examples are kept relative already. *)
Definition plain_paths : FilesFilter.PathLib :=
  {| FilesFilter.path_relative := fun from to => to;
     FilesFilter.normalize := fun p _ => p |}.

(** A matcher that knows its patterns literally: the path itself is looked
    up, and a sibling clause asks the probe for the named sibling. *)
Definition literal_globs : FilesFilter.GlobLib :=
  {| FilesFilter.glob_parse := fun expression =>
       fun p _ hasSibling =>
         match expression !! p with
         | Some (FilesFilter.GBool true) => Some p
         | Some (FilesFilter.GWhen sibling) =>
             if hasSibling sibling then Some p else None
         | _ => None
         end |}.

Definition lower (c : Ascii.ascii) : Ascii.ascii :=
  let n := Ascii.nat_of_ascii c in
  if ((65 <=? n) && (n <=? 90))%nat then Ascii.ascii_of_nat (n + 32) else c.

Fixpoint lowercase (s : string) : string :=
  match s with
  | EmptyString => EmptyString
  | String c rest => String (lower c) (lowercase rest)
  end.

Definition sign (c : comparison) : Z :=
  match c with
  | Lt => -1
  | Eq => 0
  | Gt => 1
  end.

(** Everything after the first dot, or nothing. *)
Fixpoint extension (s : string) : string :=
  match s with
  | EmptyString => EmptyString
  | String c rest => if Ascii.eqb c (Ascii.ascii_of_nat 46) then rest else extension rest
  end.

(** Case-insensitive comparers: ["a"] comes before ["B"]. *)
Definition caseless : FileSorter.Comparers :=
  {| FileSorter.compareFileNames := fun a b =>
       sign (String.compare (lowercase a) (lowercase b));
     FileSorter.compareFileExtensions := fun a b =>
       sign (String.compare (lowercase (extension a))
                            (lowercase (extension b))) |}.

Definition item (p n : string) (dir root : bool) (t : option Z) : ExplorerItem :=
  {| resource := file_uri p;
     name := n;
     isDirectory := dir;
     isRoot := root;
     mtime := t;
     root_resource := file_uri "/ws";
     parent_children := {[ n := file_uri p ]} |}.

Definition ws_root : ExplorerItem := item "/ws" "ws" true true None.
Definition lib_root : ExplorerItem := item "/lib" "lib" true true None.
Definition dir_B : ExplorerItem := item "B" "B" true false (Some 10).
Definition file_a : ExplorerItem := item "a" "a" false false (Some 20).
Definition file_old : ExplorerItem := item "old.ts" "old.ts" false false (Some 100).
Definition file_new : ExplorerItem := item "new.ts" "new.ts" false false (Some 200).
Definition file_twin : ExplorerItem := item "twin.ts" "twin.ts" false false (Some 200).
Definition node_modules : ExplorerItem :=
  item "node_modules" "node_modules" true false None.

Definition ws_folder : FilesFilter.WorkspaceFolder :=
  {| FilesFilter.uri := file_uri "/ws";
     FilesFilter.folder_name := "ws";
     FilesFilter.index := 0 |}.

Definition lib_folder : FilesFilter.WorkspaceFolder :=
  {| FilesFilter.uri := file_uri "/lib";
     FilesFilter.folder_name := "lib";
     FilesFilter.index := 1 |}.

Definition folder_of (u : URI) : option FilesFilter.WorkspaceFolder :=
  if String.eqb (path u) "/ws" then Some ws_folder
  else if String.eqb (path u) "/lib" then Some lib_folder
  else None.

Definition sorter (order : FileSorter.SortOrder) : FileSorter.Services :=
  {| FileSorter.sortOrder := order;
     FileSorter.getWorkspaceFolder := folder_of |}.

(** A file service on which every fetch fails. *)
Definition failing_source : ExplorerDataSource.Services :=
  {| ExplorerDataSource.fetchChildren := fun _ =>
       ExplorerDataSource.Rejected "EACCES";
     ExplorerDataSource.isRestored := true |}.

Definition quiet : ExplorerDataSource.World :=
  {| ExplorerDataSource.notifications := [];
     ExplorerDataSource.progress_delays := [] |}.

(** An edit session that rejects the empty name. *)
Definition non_empty : IEditableData :=
  {| validationMessage := fun v =>
       if String.eqb v "" then Some "A file or folder name must be provided."
       else None |}.

(** The workspace excludes [node_modules]; the heap holds that one object. *)
Definition excludes : FilesFilter.IExpression :=
  {[ "node_modules" := FilesFilter.GBool true ]}.

Definition filter_services : FilesFilter.Services :=
  {| FilesFilter.folders := [ws_folder];
     FilesFilter.getValue := fun _ =>
       Some {| FilesFilter.files :=
                 Some {| FilesFilter.exclude := Some 0%nat |} |};
     FilesFilter.getEditableData := fun _ => None |}.

Definition fresh_state : FilesFilter.State :=
  {| FilesFilter.hiddenExpressionPerRoot := ∅;
     FilesFilter.heap := [excludes] |}.

(** The state after the first [updateConfiguration]. *)
Definition loaded_state : FilesFilter.State :=
  snd (@FilesFilter.updateConfiguration plain_uris literal_globs
         filter_services fresh_state).

(** The same services while [node_modules] is being renamed. *)
Definition renaming_services : FilesFilter.Services :=
  {| FilesFilter.folders := [ws_folder];
     FilesFilter.getValue := FilesFilter.getValue filter_services;
     FilesFilter.getEditableData := fun stat =>
       if String.eqb (name stat) "node_modules" then Some non_empty
       else None |}.

End Examples.

(** ** ExplorerDelegate and the rest of FilesRenderer: configuration,
    row templates, labels and the selection of the input box *)

Module FilesRendererView.

(** [FilesRenderer.ID], which is also the renderer's [templateId]. *)
Definition ID : string := "file".

Definition templateId : string := ID.

(** [ExplorerDelegate]. *)
Definition ITEM_HEIGHT : Z := 22.

Definition getHeight (element : ExplorerItem) : Z := ITEM_HEIGHT.

Definition getTemplateId (element : ExplorerItem) : string := ID.

Inductive FileKind := FILE | FOLDER | ROOT_FOLDER.

(** [stat.isRoot ? FileKind.ROOT_FOLDER : stat.isDirectory ? FileKind.FOLDER
    : FileKind.FILE]. *)
Definition fileKindOf (stat : ExplorerItem) : FileKind :=
  if isRoot stat then ROOT_FOLDER
  else if isDirectory stat then FOLDER else FILE.

(** [config.explorer.decorations]. *)
Record Decorations := mkDecorations {
  colors : bool;
  badges : bool
}.

Record ExplorerSection := mkExplorer {
  decorations : Decorations
}.

Record Configuration := mkConfig {
  explorer : ExplorerSection
}.

(** A configuration-change event: what it affects, and what
    [configurationService.getValue()] returns when it is delivered. *)
Record ConfigurationChange := mkChange {
  affectsConfiguration : string -> bool;
  current : Configuration
}.

(** The renderer's own fields: [config], and whether [configListener] has
    been disposed. *)
Record Renderer := mkRenderer {
  config : Configuration;
  configListener_disposed : bool
}.

(** The constructor reads the configuration once and subscribes. *)
Definition constructor (initial : Configuration) : Renderer :=
  {| config := initial; configListener_disposed := false |}.

(** The listener the constructor registers; a disposed listener is not
    called. *)
Definition onDidChangeConfiguration (this : Renderer) (e : ConfigurationChange)
  : Renderer :=
  if configListener_disposed this then this
  else if affectsConfiguration e "explorer"
       then {| config := current e;
               configListener_disposed := configListener_disposed this |}
       else this.

(** [FilesRenderer.dispose]. *)
Definition dispose (this : Renderer) : Renderer :=
  {| config := config this; configListener_disposed := true |}.

(** [IFileLabelOptions], as far as this file sets them. *)
Record IFileLabelOptions := mkOptions {
  hidePath : bool;
  hideLabel : bool;
  fileKind : FileKind;
  extraClasses : list string;
  fileDecorations : option Decorations
}.

Inductive Display := DisplayUnset | DisplayFlex | DisplayNone.

(** [templateData.elementDisposable]: [Disposable.None], or the listener
    that one call of [label.onDidRender] registered. *)
Inductive ElementDisposable :=
  | NoDisposable
  | RenderListener (id : nat).

(** A row template with what hangs off it: the label of the template, the
    render listeners handed out and disposed so far, and the edit sessions
    whose input box was put into the container. *)
Record TemplateData := mkTemplate {
  elementDisposable : ElementDisposable;
  label_display : Display;
  label_file : option (URI * IFileLabelOptions);
  label_disposed : bool;
  listeners : nat;
  disposed_listeners : list nat;
  sessions : list FilesRenderer.Session
}.

Definition renderTemplate : TemplateData :=
  {| elementDisposable := NoDisposable;
     label_display := DisplayUnset;
     label_file := None;
     label_disposed := false;
     listeners := 0;
     disposed_listeners := [];
     sessions := [] |}.

(** [templateData.elementDisposable.dispose()]. *)
Definition dispose_element (t : TemplateData) : TemplateData :=
  match elementDisposable t with
  | NoDisposable => t
  | RenderListener id =>
      mkTemplate (elementDisposable t) (label_display t) (label_file t)
        (label_disposed t) (listeners t) (disposed_listeners t ++ [id])
        (sessions t)
  end.

(** [renderElement]; the explorer service decides between the two modes. *)
Definition renderElement (this : Renderer)
  (getEditableData : ExplorerItem -> option IEditableData)
  (stat : ExplorerItem) (templateData : TemplateData) : TemplateData :=
  let t := dispose_element templateData in
  match getEditableData stat with
  | None =>
      (* File Label *)
      let options :=
        {| hidePath := true;
           hideLabel := false;
           fileKind := fileKindOf stat;
           extraClasses := ["explorer-item"];
           fileDecorations := Some (decorations (explorer (config this))) |} in
      mkTemplate (RenderListener (listeners t)) DisplayFlex
        (Some (resource stat, options)) (label_disposed t)
        (S (listeners t)) (disposed_listeners t) (sessions t)
  | Some editableData =>
      (* Input Box *)
      mkTemplate NoDisposable DisplayNone (label_file t) (label_disposed t)
        (listeners t) (disposed_listeners t)
        (sessions t ++ [FilesRenderer.renderInputBox stat])
  end.

Definition disposeTemplate (templateData : TemplateData) : TemplateData :=
  let t := dispose_element templateData in
  mkTemplate (elementDisposable t) (label_display t) (label_file t) true
    (listeners t) (disposed_listeners t) (sessions t).

(** What the host does with a template, one call after the other. *)
Inductive TemplateCall :=
  | Render (stat : ExplorerItem)
  | DisposeTemplate.

Definition call (this : Renderer)
  (getEditableData : ExplorerItem -> option IEditableData)
  (t : TemplateData) (c : TemplateCall) : TemplateData :=
  match c with
  | Render stat => renderElement this getEditableData stat t
  | DisposeTemplate => disposeTemplate t
  end.

(** Every listener handed out so far is disposed, except the one the
    template currently holds. *)
Definition accounted (t : TemplateData) : Prop :=
  (forall id, (id < listeners t)%nat ->
     id ∈ disposed_listeners t \/ elementDisposable t = RenderListener id) /\
  (forall id, elementDisposable t = RenderListener id ->
     (id < listeners t)%nat).


(** [value.lastIndexOf(c)] for a one-character needle: the index of its last
    occurrence, [-1] when there is none. *)
Fixpoint lastIndexOf (c : Ascii.ascii) (value : string) : Z :=
  match value with
  | EmptyString => -1
  | String a rest =>
      let later := lastIndexOf c rest in
      if Z.leb 0 later then 1 + later
      else if Ascii.eqb a c then 0 else -1
  end.

Definition dot : Ascii.ascii := Ascii.ascii_of_nat 46.

(** The range handed to [inputBox.select]:
    [{ start: 0, end: lastDot > 0 && !stat.isDirectory ? lastDot :
    value.length }], with [value = stat.name || '']. *)
Record Range := mkRange {
  range_start : Z;
  range_end : Z
}.

Definition selection (stat : ExplorerItem) : Range :=
  let value := name stat in
  let lastDot := lastIndexOf dot value in
  {| range_start := 0;
     range_end := if Z.ltb 0 lastDot && negb (isDirectory stat)
                  then lastDot
                  else Z.of_nat (String.length value) |}.

End FilesRendererView.

(** ** A row with its input boxes *)

Module FilesRendererRow.

Import FilesRenderer FilesRendererView.







End FilesRendererRow.

(** ** A workspace on disk, for the examples of the filter *)

Module Workspace.

Import FilesFilter.

Definition slash (c : Ascii.ascii) : Ascii.ascii :=
  if Ascii.eqb c (Ascii.ascii_of_nat 92) then Ascii.ascii_of_nat 47 else c.

Fixpoint slashes (p : string) : string :=
  match p with
  | EmptyString => EmptyString
  | String c rest => String (slash c) (slashes rest)
  end.

(** POSIX paths: [relative] strips the directory it starts from off the
    front, [normalize] turns backslashes into slashes. *)
Definition posix_paths : PathLib :=
  {| path_relative := fun from to =>
       let base := String.append from "/" in
       if String.prefix base to
       then String.substring (String.length base)
              (String.length to - String.length base) to
       else to;
     normalize := fun p _ => slashes p |}.

(** [app.js] sits next to [app.ts]; [lone.js] has no such sibling. *)
Definition app_js : ExplorerItem :=
  {| resource := Examples.file_uri "/ws/src/app.js";
     name := "app.js";
     isDirectory := false;
     isRoot := false;
     mtime := Some 5;
     root_resource := Examples.file_uri "/ws";
     parent_children :=
       {[ "app.js" := Examples.file_uri "/ws/src/app.js";
          "app.ts" := Examples.file_uri "/ws/src/app.ts" ]} |}.

Definition lone_js : ExplorerItem :=
  {| resource := Examples.file_uri "/ws/src/lone.js";
     name := "lone.js";
     isDirectory := false;
     isRoot := false;
     mtime := Some 5;
     root_resource := Examples.file_uri "/ws";
     parent_children :=
       {[ "lone.js" := Examples.file_uri "/ws/src/lone.js" ]} |}.

(** Compiled script files are excluded when their source is next to them. *)
Definition excludes : IExpression :=
  {[ "src/app.js" := GWhen "app.ts"; "src/lone.js" := GWhen "lone.ts" ]}.

Definition services : Services :=
  {| folders := [Examples.ws_folder];
     getValue := fun _ =>
       Some {| files := Some {| exclude := Some 0%nat |} |};
     getEditableData := fun _ => None |}.

Definition renaming : Services :=
  {| folders := [Examples.ws_folder];
     getValue := getValue services;
     getEditableData := fun stat =>
       if String.eqb (name stat) "app.js" then Some Examples.non_empty
       else None |}.

Definition unread : State :=
  {| hiddenExpressionPerRoot := ∅; heap := [excludes] |}.

Definition loaded : State :=
  snd (@updateConfiguration Examples.plain_uris Examples.literal_globs
         services unread).

(** The entry the first run stores for the workspace folder. *)
Definition entry : CachedParsedExpression :=
  {| original := 1%nat;
     parsed := @glob_parse Examples.literal_globs excludes |}.

End Workspace.

(** * Properties *)

(** ** ExplorerDataSource *)

Section DataSource.

Import ExplorerDataSource.

Lemma hasChildren_single (item : ExplorerItem) :
  hasChildren (Single item) = isDirectory item.
Proof. reflexivity. Qed.

Lemma hasChildren_roots (items : list ExplorerItem) :
  hasChildren (Roots items) = true.
Proof. reflexivity. Qed.

(** C9: [hasChildren] answers true exactly for a list of items (the empty
    list included) and for a single item whose [isDirectory] flag is set; for
    a single item it is the flag itself, so false for every non-directory. *)
Theorem hasChildren_iff (element : Element) :
  (hasChildren element = true <->
     (exists items, element = Roots items) \/
     (exists item, element = Single item /\ isDirectory item = true)) /\
  hasChildren (Roots []) = true /\
  (forall item, hasChildren (Single item) = isDirectory item).
Proof.
  split; [| split; [reflexivity | exact hasChildren_single]].
  destruct element as [item | items].
  - rewrite hasChildren_single. split.
    + intros Hdir. right. exists item. split; [reflexivity | exact Hdir].
    + intros [[items Habs] | [item' [Heq Hdir]]]; [discriminate |].
      injection Heq as ->. exact Hdir.
  - rewrite hasChildren_roots. split; [| reflexivity].
    intros _. left. exists items. reflexivity.
Qed.

Example hasChildren_file : hasChildren (Single Examples.file_a) = false.
Proof. reflexivity. Qed.

Lemma then_rejected_recovers {A} (e : Error) (handler : Error -> M A) (w : World) :
  then_rejected (Rejected e) handler w =
  (Fulfilled (fst (handler e w)), snd (handler e w)).
Proof.
  unfold then_rejected, bind, ret. destruct (handler e w); reflexivity.
Qed.

(** C6: when the fetch of a single item's children fails with [e], the promise
    [getChildren] returns is fulfilled with the empty list; the notification
    service receives exactly [e] when the item is not a root and nothing when
    it is one. *)
Theorem getChildren_fetch_failure (this : Services) (item : ExplorerItem)
  (e : Error) (w : World) :
  fetchChildren this item = Rejected e ->
  fst (getChildren this (Single item) w) = Fulfilled [] /\
  notifications (snd (getChildren this (Single item) w)) =
    notifications w ++ (if isRoot item then [] else [e]) /\
  length (notifications (snd (getChildren this (Single item) w))) =
    (length (notifications w) + (if isRoot item then 0 else 1))%nat.
Proof.
  intros Hfail.
  assert (Hrun : getChildren this (Single item) w =
            (Fulfilled [],
             {| notifications :=
                  notifications w ++ (if isRoot item then [] else [e]);
                progress_delays :=
                  progress_delays w ++
                  [if isRestored this then 800 else 3200] |})).
  { unfold getChildren. rewrite Hfail. unfold bind at 1. cbn [showWhile].
    rewrite then_rejected_recovers. cbn [instanceofExplorerItem andb].
    destruct (isRoot item); cbn; [rewrite app_nil_r |]; reflexivity. }
  rewrite Hrun. cbn [fst snd notifications].
  split; [reflexivity | split; [reflexivity |]].
  rewrite length_app. destruct (isRoot item); reflexivity.
Qed.

Lemma getChildren_fetch_failure_witness :
  fst (getChildren Examples.failing_source (Single Examples.dir_B)
         Examples.quiet) = Fulfilled [] /\
  notifications (snd (getChildren Examples.failing_source
                        (Single Examples.dir_B) Examples.quiet)) = ["EACCES"] /\
  notifications (snd (getChildren Examples.failing_source
                        (Single Examples.ws_root) Examples.quiet)) = [].
Proof.
  split; [| split].
  - apply (getChildren_fetch_failure Examples.failing_source Examples.dir_B
             "EACCES" Examples.quiet). reflexivity.
  - apply (getChildren_fetch_failure Examples.failing_source Examples.dir_B
             "EACCES" Examples.quiet). reflexivity.
  - apply (getChildren_fetch_failure Examples.failing_source Examples.ws_root
             "EACCES" Examples.quiet). reflexivity.
Defined.

(** A list of roots is handed back as it is, with no service involved. *)
Lemma getChildren_roots (this : Services) (items : list ExplorerItem) (w : World) :
  getChildren this (Roots items) w = (Fulfilled items, w).
Proof. reflexivity. Qed.

(** A successful fetch passes through and notifies nobody. *)
Lemma getChildren_fetch_success (this : Services) (item : ExplorerItem)
  (children : list ExplorerItem) (w : World) :
  fetchChildren this item = Fulfilled children ->
  fst (getChildren this (Single item) w) = Fulfilled children /\
  notifications (snd (getChildren this (Single item) w)) = notifications w.
Proof.
  intros Hok. unfold getChildren. rewrite Hok. split; reflexivity.
Qed.

End DataSource.

(** ** FileSorter *)

Section Sorter.

Import FilesFilter (WorkspaceFolder, index).
Import FileSorter.

Context {comparers : Comparers}.

Lemma compare_non_roots (this : Services) (statA statB : ExplorerItem) :
  isRoot statA = false -> isRoot statB = false ->
  compare this statA statB =
  Some (default (sort_files (sortOrder this) statA statB)
          (sort_directories (sortOrder this) statA statB)).
Proof.
  intros HA HB. unfold compare. rewrite HA, HB.
  destruct (sort_directories _ _ _); reflexivity.
Qed.

(** C3: whatever the sort mode, a root compared with a non-root comes first
    (-1 when it is the left operand, 1 when it is the right one), and two
    roots compare as the difference of the indices of their workspace
    folders, so the smaller index comes first. *)
Theorem compare_roots (this : Services) (statA statB : ExplorerItem) :
  (isRoot statA = true -> isRoot statB = false ->
   compare this statA statB = Some (-1)) /\
  (isRoot statA = false -> isRoot statB = true ->
   compare this statA statB = Some 1) /\
  (forall folderA folderB : WorkspaceFolder,
     isRoot statA = true -> isRoot statB = true ->
     getWorkspaceFolder this (resource statA) = Some folderA ->
     getWorkspaceFolder this (resource statB) = Some folderB ->
     compare this statA statB = Some (index folderA - index folderB) /\
     (index folderA < index folderB <-> index folderA - index folderB < 0)).
Proof.
  unfold compare. split; [| split].
  - intros -> ->. reflexivity.
  - intros -> ->. reflexivity.
  - intros folderA folderB -> -> -> ->. split; [reflexivity | lia].
Qed.

(** C4: in sort mode ['type'], among non-roots a directory comes before a
    file, two directories compare by [compareFileNames] and two files by
    [compareFileExtensions]. *)
Theorem compare_type_mode (this : Services) (statA statB : ExplorerItem) :
  sortOrder this = SortType ->
  isRoot statA = false -> isRoot statB = false ->
  compare this statA statB =
  Some (match isDirectory statA, isDirectory statB with
        | true, false => -1
        | false, true => 1
        | true, true => compareFileNames (name statA) (name statB)
        | false, false => compareFileExtensions (name statA) (name statB)
        end).
Proof.
  intros Hmode HA HB. rewrite (compare_non_roots this statA statB HA HB).
  rewrite Hmode. unfold sort_directories, sort_files.
  destruct (isDirectory statA), (isDirectory statB); reflexivity.
Qed.

(** C5: in sort mode ['modified'], among non-roots of the same kind (both
    directories or both files) the later modification time comes first, and
    equal modification times leave the order to [compareFileNames]. *)
Theorem compare_modified_mode (this : Services) (statA statB : ExplorerItem) :
  sortOrder this = SortModified ->
  isRoot statA = false -> isRoot statB = false ->
  isDirectory statA = isDirectory statB ->
  (forall tA tB, mtime statA = Some tA -> mtime statB = Some tB -> tA < tB ->
     compare this statA statB = Some 1) /\
  (forall tA tB, mtime statA = Some tA -> mtime statB = Some tB -> tB < tA ->
     compare this statA statB = Some (-1)) /\
  (mtime statA = mtime statB ->
     compare this statA statB =
     Some (compareFileNames (name statA) (name statB))).
Proof.
  intros Hmode HA HB Hkind. rewrite (compare_non_roots this statA statB HA HB).
  rewrite Hmode. unfold sort_directories, sort_files. rewrite Hkind.
  assert (Hgroup : forall d : bool, d && negb d = false)
    by (intros []; reflexivity).
  rewrite !Hgroup. cbn [default]. unfold strict_neq, less_than.
  split; [| split].
  - intros tA tB -> -> Hlt. rewrite bool_decide_eq_false_2 by (intros [=]; lia).
    cbn [negb]. apply Z.ltb_lt in Hlt. rewrite Hlt. reflexivity.
  - intros tA tB -> -> Hlt. rewrite bool_decide_eq_false_2 by (intros [=]; lia).
    cbn [negb]. rewrite (proj2 (Z.ltb_ge tA tB)) by lia. reflexivity.
  - intros ->. rewrite bool_decide_eq_true_2 by reflexivity. reflexivity.
Qed.

(** X10: in sort mode ['modified'] the kinds are grouped first: among
    non-roots a directory comes before a file whatever the time stamps say,
    in either order of the operands. *)
Lemma compare_modified_groups (this : Services) (statA statB : ExplorerItem) :
  sortOrder this = SortModified ->
  isRoot statA = false -> isRoot statB = false ->
  isDirectory statA = true -> isDirectory statB = false ->
  compare this statA statB = Some (-1) /\ compare this statB statA = Some 1.
Proof.
  intros Hmode HA HB HdA HdB.
  rewrite (compare_non_roots this statA statB HA HB).
  rewrite (compare_non_roots this statB statA HB HA).
  rewrite Hmode. unfold sort_directories. rewrite HdA, HdB. split; reflexivity.
Qed.

End Sorter.

Lemma compare_roots_witness :
  let this := Examples.sorter FileSorter.SortModified in
  @FileSorter.compare Examples.caseless this Examples.ws_root Examples.file_a
    = Some (-1) /\
  @FileSorter.compare Examples.caseless this Examples.file_a Examples.ws_root
    = Some 1 /\
  @FileSorter.compare Examples.caseless this Examples.ws_root Examples.lib_root
    = Some (0 - 1) /\
  @FileSorter.compare Examples.caseless this Examples.lib_root Examples.ws_root
    = Some (1 - 0).
Proof.
  intros this.
  destruct (@compare_roots Examples.caseless this Examples.ws_root Examples.file_a)
    as [root_left _].
  destruct (@compare_roots Examples.caseless this Examples.file_a Examples.ws_root)
    as [_ [root_right _]].
  destruct (@compare_roots Examples.caseless this Examples.ws_root Examples.lib_root)
    as [_ [_ two_roots]].
  destruct (@compare_roots Examples.caseless this Examples.lib_root Examples.ws_root)
    as [_ [_ two_roots']].
  split; [| split; [| split]].
  - apply root_left; reflexivity.
  - apply root_right; reflexivity.
  - apply (two_roots Examples.ws_folder Examples.lib_folder); reflexivity.
  - apply (two_roots' Examples.lib_folder Examples.ws_folder); reflexivity.
Defined.

(** The directory "B" against the file "a": by name "a" would come first,
    the kinds decide. *)
Lemma compare_type_mode_witness :
  let this := Examples.sorter FileSorter.SortType in
  @FileSorter.compareFileNames Examples.caseless "a" "B" = -1 /\
  @FileSorter.compare Examples.caseless this Examples.dir_B Examples.file_a
    = Some (-1) /\
  @FileSorter.compare Examples.caseless this Examples.file_a Examples.dir_B
    = Some 1.
Proof.
  intros this. split; [reflexivity | split].
  - apply (@compare_type_mode Examples.caseless this Examples.dir_B
             Examples.file_a); reflexivity.
  - apply (@compare_type_mode Examples.caseless this Examples.file_a
             Examples.dir_B); reflexivity.
Defined.

Lemma compare_modified_mode_witness :
  let this := Examples.sorter FileSorter.SortModified in
  @FileSorter.compare Examples.caseless this Examples.file_old Examples.file_new
    = Some 1 /\
  @FileSorter.compare Examples.caseless this Examples.file_new Examples.file_old
    = Some (-1) /\
  @FileSorter.compare Examples.caseless this Examples.file_new Examples.file_twin
    = Some (@FileSorter.compareFileNames Examples.caseless "new.ts" "twin.ts").
Proof.
  intros this.
  destruct (@compare_modified_mode Examples.caseless this Examples.file_old
              Examples.file_new eq_refl eq_refl eq_refl eq_refl)
    as [newer_first _].
  destruct (@compare_modified_mode Examples.caseless this Examples.file_new
              Examples.file_old eq_refl eq_refl eq_refl eq_refl)
    as [_ [newer_first' _]].
  destruct (@compare_modified_mode Examples.caseless this Examples.file_new
              Examples.file_twin eq_refl eq_refl eq_refl eq_refl)
    as [_ [_ by_name]].
  split; [| split].
  - apply (newer_first 100 200); [reflexivity | reflexivity | lia].
  - apply (newer_first' 200 100); [reflexivity | reflexivity | lia].
  - apply by_name. reflexivity.
Defined.

(** ** FilesFilter.filter *)

Section Filter.

Import FilesFilter.

Context {uris : UriLib} {paths : PathLib}.

Lemma filter_hidden_parent (this : Services) (st : State) (stat : ExplorerItem) :
  filter this st stat Hidden = {| visible := false; matcher_calls := [] |}.
Proof. reflexivity. Qed.

Lemma filter_shown_parent (this : Services) (st : State) (stat : ExplorerItem)
  (parentVisibility : TreeVisibility) :
  parentVisibility <> Hidden ->
  filter this st stat parentVisibility = filter this st stat Visible.
Proof. destruct parentVisibility; [congruence | reflexivity | reflexivity]. Qed.

Lemma filter_plain_item (this : Services) (st : State) (stat : ExplorerItem) :
  getEditableData this stat = None -> isRoot stat = false ->
  filter this st stat Visible =
  match hiddenExpressionPerRoot st !! uri_toString (root_resource stat) with
  | Some cached =>
      {| visible := negb (truthy (parsed cached (relative_path stat)
                                    (name stat) (sibling_probe stat)));
         matcher_calls := [the_call stat] |}
  | None => {| visible := true; matcher_calls := [] |}
  end.
Proof.
  intros Hedit Hroot. unfold filter. rewrite Hedit, Hroot.
  rewrite bool_decide_eq_false_2 by (intros [? ?]; discriminate).
  cbn [orb]. destruct (hiddenExpressionPerRoot st !! _) as [cached |];
    [| reflexivity].
  destruct (truthy _); reflexivity.
Qed.

(** C1: the rule of [filter], read from the top.  Under a hidden parent the
    item is hidden and no matcher runs.  Otherwise an item with an
    editable-data record, or a root, is visible, again with no matcher run.
    Otherwise the item is hidden exactly when its root has a cache entry whose
    compiled matcher returns a match on these three arguments: the path of
    the item relative to the path of its root, normalized; the item's name;
    and the probe that tells whether the parent has a child of a given name.
    That is then the only matcher call. *)
Theorem filter_rule (this : Services) (st : State) (stat : ExplorerItem)
  (parentVisibility : TreeVisibility) :
  (parentVisibility = Hidden ->
   filter this st stat parentVisibility =
     {| visible := false; matcher_calls := [] |}) /\
  (parentVisibility <> Hidden ->
   is_Some (getEditableData this stat) \/ isRoot stat = true ->
   filter this st stat parentVisibility =
     {| visible := true; matcher_calls := [] |}) /\
  (parentVisibility <> Hidden ->
   getEditableData this stat = None -> isRoot stat = false ->
   (visible (filter this st stat parentVisibility) = false <->
    exists cached,
      hiddenExpressionPerRoot st !! uri_toString (root_resource stat)
        = Some cached /\
      truthy (parsed cached
                (normalize
                   (path_relative (path (root_resource stat))
                      (path (resource stat))) true)
                (name stat)
                (fun sibling =>
                   bool_decide (is_Some (parent_children stat !! sibling))))
        = true) /\
   matcher_calls (filter this st stat parentVisibility) =
     match hiddenExpressionPerRoot st !! uri_toString (root_resource stat) with
     | Some _ =>
         [ {| call_root := uri_toString (root_resource stat);
              call_path :=
                normalize
                  (path_relative (path (root_resource stat))
                     (path (resource stat))) true;
              call_basename := name stat |} ]
     | None => []
     end).
Proof.
  split; [| split].
  - intros ->. apply filter_hidden_parent.
  - intros Hshown Hkeep. rewrite (filter_shown_parent _ _ _ _ Hshown).
    unfold filter.
    destruct Hkeep as [Hedit | Hroot].
    + rewrite bool_decide_eq_true_2 by exact Hedit. reflexivity.
    + rewrite Hroot, orb_true_r. reflexivity.
  - intros Hshown Hedit Hroot. rewrite (filter_shown_parent _ _ _ _ Hshown).
    rewrite (filter_plain_item _ _ _ Hedit Hroot).
    destruct (hiddenExpressionPerRoot st !! _) as [cached |]; cbn.
    + split.
      * rewrite negb_false_iff. split.
        -- intros Hmatch. exists cached. split; [reflexivity | exact Hmatch].
        -- intros [cached' [[= <-] Hmatch]]. exact Hmatch.
      * reflexivity.
    + split; [| reflexivity].
      split; [discriminate | intros [cached [Habs _]]; discriminate].
Qed.

(** The amended C10: when the parent is not hidden, a non-root item without
    an edit session whose root has no entry in the cache is visible, and no
    matcher runs. *)
Theorem filter_no_cache_entry (this : Services) (st : State)
  (stat : ExplorerItem) (parentVisibility : TreeVisibility) :
  parentVisibility <> Hidden ->
  isRoot stat = false ->
  getEditableData this stat = None ->
  hiddenExpressionPerRoot st !! uri_toString (root_resource stat) = None ->
  filter this st stat parentVisibility =
    {| visible := true; matcher_calls := [] |}.
Proof.
  intros Hshown Hroot Hedit Hmiss.
  rewrite (filter_shown_parent _ _ _ _ Hshown).
  rewrite (filter_plain_item _ _ _ Hedit Hroot), Hmiss. reflexivity.
Qed.

End Filter.

Lemma workspace_entry :
  FilesFilter.hiddenExpressionPerRoot Workspace.loaded
    !! @uri_toString Examples.plain_uris (root_resource Workspace.app_js)
  = Some Workspace.entry.
Proof. reflexivity. Qed.

(** In the workspace [/ws], [/ws/src/app.js] is excluded under the pattern
    [src/app.js] when [app.ts] is next to it.  Under a hidden parent it is
    hidden without a matcher call; while it is renamed it is visible without
    one; otherwise the matcher gets the root-relative path [src/app.js], the
    name and the probe, finds the sibling and hides it.  [lone.js] has no
    such sibling and stays visible. *)
Lemma filter_rule_witness :
  let filter := @FilesFilter.filter Examples.plain_uris Workspace.posix_paths in
  filter Workspace.services Workspace.loaded Workspace.app_js FilesFilter.Hidden
    = {| FilesFilter.visible := false; FilesFilter.matcher_calls := [] |} /\
  filter Workspace.renaming Workspace.loaded Workspace.app_js
    FilesFilter.Visible
    = {| FilesFilter.visible := true; FilesFilter.matcher_calls := [] |} /\
  FilesFilter.visible
    (filter Workspace.services Workspace.loaded Workspace.app_js
       FilesFilter.Visible) = false /\
  FilesFilter.matcher_calls
    (filter Workspace.services Workspace.loaded Workspace.app_js
       FilesFilter.Visible)
    = [ {| FilesFilter.call_root := "file:///ws";
           FilesFilter.call_path := "src/app.js";
           FilesFilter.call_basename := "app.js" |} ] /\
  FilesFilter.visible
    (filter Workspace.services Workspace.loaded Workspace.lone_js
       FilesFilter.Visible) = true.
Proof.
  intros filter. subst filter. cbv beta.
  destruct (@filter_rule Examples.plain_uris Workspace.posix_paths
              Workspace.services Workspace.loaded Workspace.app_js
              FilesFilter.Hidden) as [under_hidden _].
  destruct (@filter_rule Examples.plain_uris Workspace.posix_paths
              Workspace.renaming Workspace.loaded Workspace.app_js
              FilesFilter.Visible) as [_ [edited _]].
  destruct (@filter_rule Examples.plain_uris Workspace.posix_paths
              Workspace.services Workspace.loaded Workspace.app_js
              FilesFilter.Visible) as [_ [_ plain]].
  destruct (@filter_rule Examples.plain_uris Workspace.posix_paths
              Workspace.services Workspace.loaded Workspace.lone_js
              FilesFilter.Visible) as [_ [_ alone]].
  destruct plain as [hidden_iff calls];
    [discriminate | reflexivity | reflexivity |].
  destruct alone as [alone_iff _];
    [discriminate | reflexivity | reflexivity |].
  split; [| split; [| split; [| split]]].
  - apply under_hidden. reflexivity.
  - apply edited; [discriminate | left; eexists; reflexivity].
  - apply hidden_iff. exists Workspace.entry.
    split; [exact workspace_entry | reflexivity].
  - rewrite calls, workspace_entry. reflexivity.
  - destruct (FilesFilter.visible
                (@FilesFilter.filter Examples.plain_uris Workspace.posix_paths
                   Workspace.services Workspace.loaded Workspace.lone_js
                   FilesFilter.Visible)) eqn:Hvisible; [reflexivity |].
    destruct (proj1 alone_iff eq_refl) as (cached & Hcached & Hmatch).
    change (root_resource Workspace.lone_js)
      with (root_resource Workspace.app_js) in Hcached.
    rewrite workspace_entry in Hcached. injection Hcached as <-.
    vm_compute in Hmatch. discriminate Hmatch.
Defined.

Lemma filter_no_cache_entry_witness :
  @FilesFilter.filter Examples.plain_uris Examples.plain_paths
    Examples.filter_services Examples.fresh_state Examples.node_modules
    FilesFilter.Visible
  = {| FilesFilter.visible := true; FilesFilter.matcher_calls := [] |}.
Proof.
  apply (@filter_no_cache_entry Examples.plain_uris Examples.plain_paths
           Examples.filter_services Examples.fresh_state Examples.node_modules
           FilesFilter.Visible);
    [discriminate | reflexivity | reflexivity | reflexivity].
Defined.

(** C10 as stated fails under a hidden parent: the item is neither a root nor
    edited, its root has no cache entry, and it is reported hidden. *)
Lemma filter_no_cache_entry_counterexample :
  ~ (forall (uris : UriLib) (paths : FilesFilter.PathLib)
       (this : FilesFilter.Services) (st : FilesFilter.State)
       (stat : ExplorerItem) (parentVisibility : FilesFilter.TreeVisibility),
       isRoot stat = false ->
       FilesFilter.getEditableData this stat = None ->
       FilesFilter.hiddenExpressionPerRoot st
         !! uri_toString (root_resource stat) = None ->
       FilesFilter.visible (FilesFilter.filter this st stat parentVisibility)
         = true).
Proof.
  intros claim.
  specialize (claim Examples.plain_uris Examples.plain_paths
                Examples.filter_services Examples.fresh_state Examples.file_a
                FilesFilter.Hidden eq_refl eq_refl eq_refl).
  discriminate claim.
Qed.

(** ** FilesRenderer: the edit session *)

Section Renderer.

Import FilesRenderer.

Variable editableData : IEditableData.

Lemma set_value_same (s : Session) : set_value (value s) s = s.
Proof. destruct s; reflexivity. Qed.

Lemma set_value_twice (v v' : string) (s : Session) :
  set_value v' (set_value v s) = set_value v' s.
Proof. reflexivity. Qed.

Lemma once_called (fn : Session -> Session) (s : Session) :
  didCall s = true -> once fn s = s.
Proof. intros Hcalled. unfold once. rewrite Hcalled. reflexivity. Qed.

(** Once the flag is up, an event can at most change the text. *)
Lemma dispatch_after_call (e : DomEvent) (s : Session) :
  didCall s = true -> exists v, dispatch editableData e s = set_value v s.
Proof.
  intros Hcalled.
  assert (Hsame : exists v, s = set_value v s)
    by (exists (value s); symmetry; apply set_value_same).
  destruct e as [k nested | nested | text]; cbn [dispatch].
  - destruct (is_disposed DKeyDownListener s); [exact Hsame |].
    destruct k; [destruct (validate editableData s) | |];
      unfold done; rewrite ?once_called by exact Hcalled; exact Hsame.
  - destruct (is_disposed DBlurListener s); [exact Hsame |].
    unfold done. rewrite once_called by exact Hcalled. exact Hsame.
  - destruct (is_disposed DInputBox s); [exact Hsame |].
    exists text. reflexivity.
Qed.

Lemma run_after_call (es : list DomEvent) (s : Session) :
  didCall s = true -> exists v, run editableData es s = set_value v s.
Proof.
  revert s. induction es as [| e es IH]; intros s Hcalled.
  - exists (value s). symmetry. apply set_value_same.
  - destruct (dispatch_after_call e s Hcalled) as [v Hv].
    destruct (IH (set_value v s) Hcalled) as [v' Hv'].
    exists v'. cbn [run fold_left]. rewrite Hv. exact Hv'.
Qed.

Lemma dispose_toDispose (deliver : Session -> Session) (s : Session) :
  dispose deliver toDispose s =
  add_disposed DStyler
    (add_disposed DLabel
       (add_disposed DBlurListener
          (add_disposed DKeyDownListener
             (deliver (add_disposed DInputBox s))))).
Proof. reflexivity. Qed.

(** The first call of [done]: one [onFinish] with the text read before the
    teardown, everything disposed, whatever arrives while the box goes away. *)
Lemma done_live (nested : list DomEvent) (success blur : bool) (s : Session) :
  live s ->
  exists v,
    done (run editableData nested) success blur s =
    {| value := v; didCall := true; disposed := toDispose;
       labelHidden := true; labelAttached := false;
       finished := [(value s, success)] |}.
Proof.
  destruct s as [v0 called ds hidden attached fin].
  intros (Hcall & Hds & Hatt & Hhid & Hfin). cbn in *. subst.
  unfold done, once. cbn [didCall]. unfold done_body. cbv zeta.
  rewrite !dispose_toDispose.
  destruct (run_after_call nested
              (add_disposed DInputBox
                 (hide_label
                    (set_didCall (mkSession v0 false [] false true []))))
              eq_refl) as [v Hv].
  rewrite Hv. exists v. reflexivity.
Qed.

Lemma dispatch_completed (e : DomEvent) (s : Session) (v : string) (b : bool) :
  completed s v b -> dispatch editableData e s = s.
Proof.
  intros (_ & Hds & _). unfold is_disposed.
  destruct e; cbn [dispatch]; unfold is_disposed; rewrite Hds;
    reflexivity.
Qed.

Lemma dispatch_live (e : DomEvent) (s : Session) :
  live s ->
  live (dispatch editableData e s) \/
  exists v b, completed (dispatch editableData e s) v b.
Proof.
  intros Hlive.
  assert (Hdone : forall nested success blur,
            exists v b, completed
              (done (run editableData nested) success blur s) v b).
  { intros nested success blur.
    destruct (done_live nested success blur s Hlive) as [v Hv].
    exists (value s), success. rewrite Hv. repeat split. }
  destruct e as [k nested | nested | text]; cbn [dispatch].
  - destruct (is_disposed DKeyDownListener s); [left; exact Hlive |].
    destruct k; [destruct (validate editableData s) | |].
    + right. apply Hdone.
    + left. exact Hlive.
    + right. apply Hdone.
    + left. exact Hlive.
  - destruct (is_disposed DBlurListener s); [left; exact Hlive |].
    right. apply Hdone.
  - left. destruct (is_disposed DInputBox s); [exact Hlive |].
    destruct s; exact Hlive.
Qed.

Lemma run_invariant (es : list DomEvent) (s : Session) :
  live s \/ (exists v b, completed s v b) ->
  live (run editableData es s) \/
  exists v b, completed (run editableData es s) v b.
Proof.
  revert s. induction es as [| e es IH]; intros s Hinv; [exact Hinv |].
  cbn [run fold_left]. apply IH.
  destruct Hinv as [Hlive | (v & b & Hcompleted)].
  - apply dispatch_live. exact Hlive.
  - right. exists v, b.
    rewrite (dispatch_completed e s v b Hcompleted). exact Hcompleted.
Qed.

Lemma renderInputBox_live (stat : ExplorerItem) : live (renderInputBox stat).
Proof. repeat split. Qed.

(** C7: whatever events reach the input box of an edit session, and in
    whatever nesting, [onFinish] is called at most once; a session is either
    untouched (no call, nothing disposed, the label shown and attached) or
    completed (exactly one call, and the input box, the key listener, the
    blur listener, the label and the styler disposed, in this order and each
    once, the label hidden and detached), so the disposal comes with the one
    call. *)
Theorem onFinish_at_most_once (stat : ExplorerItem) (es : list DomEvent) :
  let s := run editableData es (renderInputBox stat) in
  (length (finished s) <= 1)%nat /\
  ((didCall s = false /\ disposed s = [] /\ labelAttached s = true /\
    labelHidden s = false /\ finished s = []) \/
   exists v success,
     didCall s = true /\
     disposed s = [DInputBox; DKeyDownListener; DBlurListener; DLabel; DStyler]
     /\ labelAttached s = false /\ labelHidden s = true /\
     finished s = [(v, success)]).
Proof.
  intros s.
  assert (Hinv : live s \/ exists v success, completed s v success)
    by (apply run_invariant; left; apply renderInputBox_live).
  split; [| exact Hinv].
  destruct Hinv as [(_ & _ & _ & _ & ->) | (v & b & _ & _ & _ & _ & ->)];
    cbn; lia.
Qed.

(** C8: in a live session, Enter completes with success [true] when the text
    validates and does nothing when it does not; Escape completes with success
    [false] whether or not the text validates; losing the focus completes with
    the validity of the text as success.  The text validates when the
    validator has no message for it. *)
Theorem commit_triggers (nested : list DomEvent) (s : Session) :
  live s ->
  let valid := negb (truthy (validationMessage editableData (value s))) in
  finished (dispatch editableData (KeyDown Enter nested) s) =
    (if valid then [(value s, true)] else []) /\
  (valid = false -> dispatch editableData (KeyDown Enter nested) s = s) /\
  finished (dispatch editableData (KeyDown Escape nested) s) =
    [(value s, false)] /\
  finished (dispatch editableData (Blur nested) s) = [(value s, valid)].
Proof.
  intros Hlive valid.
  assert (Hvalidate : validate editableData s = valid).
  { unfold validate, validation, valid.
    destruct (validationMessage editableData (value s)) as [msg |];
      [| reflexivity].
    cbn [truthy]. destruct (msg =? "")%string; reflexivity. }
  assert (Hvalid : isInputValid editableData s = valid) by exact Hvalidate.
  assert (Hkey : is_disposed DKeyDownListener s = false).
  { unfold is_disposed. destruct Hlive as (_ & -> & _). reflexivity. }
  assert (Hblur : is_disposed DBlurListener s = false).
  { unfold is_disposed. destruct Hlive as (_ & -> & _). reflexivity. }
  cbn [dispatch]. rewrite Hkey, Hblur, Hvalidate, Hvalid.
  split; [| split; [| split]].
  - destruct valid.
    + destruct (done_live nested true false s Hlive) as [v Hv].
      change (fun s' => fold_left
                (fun acc e' => dispatch editableData e' acc) nested s')
        with (run editableData nested).
      rewrite Hv. reflexivity.
    + destruct Hlive as (_ & _ & _ & _ & ->). reflexivity.
  - intros ->. reflexivity.
  - destruct (done_live nested false false s Hlive) as [v Hv].
    change (fun s' => fold_left
              (fun acc e' => dispatch editableData e' acc) nested s')
      with (run editableData nested).
    rewrite Hv. reflexivity.
  - destruct (done_live nested valid true s Hlive) as [v Hv].
    change (fun s' => fold_left
              (fun acc e' => dispatch editableData e' acc) nested s')
      with (run editableData nested).
    rewrite Hv. reflexivity.
Qed.

End Renderer.

(** ** FilesFilter.updateConfiguration *)

Section UpdateConfiguration.

Import FilesFilter.

Context {uris : UriLib} {globs : GlobLib}.

Lemma deref_app_l (h ext : Heap) (l : Loc) :
  (l < length h)%nat -> deref (h ++ ext) l = deref h l.
Proof. intros Hin. unfold deref. rewrite lookup_app_l by exact Hin. reflexivity. Qed.

Lemma lookup_alloc (h : Heap) (v : IExpression) :
  (h ++ [v]) !! length h = Some v.
Proof. rewrite lookup_app_r by lia. rewrite Nat.sub_diag. reflexivity. Qed.

Lemma deref_alloc (h : Heap) (v : IExpression) : deref (h ++ [v]) (length h) = v.
Proof. unfold deref. rewrite lookup_alloc. reflexivity. Qed.

(** Reading the configuration of a folder yields a reference to its raw
    expression, and at most adds an empty object to the heap. *)
Lemma read_excludes_spec (this : Services) (h0 ext : Heap)
  (folder : WorkspaceFolder) :
  (forall obj, (getValue this (uri folder) ≫= files) ≫= exclude = Some obj ->
               (obj < length h0)%nat) ->
  exists ext1,
    snd (read_excludes this (h0 ++ ext) folder) = (h0 ++ ext) ++ ext1 /\
    deref (snd (read_excludes this (h0 ++ ext) folder))
          (fst (read_excludes this (h0 ++ ext) folder))
      = raw_excludes this h0 folder.
Proof.
  intros Hclosed. unfold read_excludes, raw_excludes.
  destruct ((getValue this (uri folder) ≫= files) ≫= exclude) as [obj |].
  - exists []. cbn [fst snd]. rewrite app_nil_r. split; [reflexivity |].
    apply deref_app_l. apply Hclosed. reflexivity.
  - exists [∅]. cbn [alloc fst snd]. split; [reflexivity |]. apply deref_alloc.
Qed.

(** One turn of the loop, unfolded. *)
Lemma update_folder_eq (this : Services) (needsRefresh : bool) (st : State)
  (folder : WorkspaceFolder) :
  let obj := fst (read_excludes this (heap st) folder) in
  let h1 := snd (read_excludes this (heap st) folder) in
  let key := uri_toString (uri folder) in
  update_folder this (needsRefresh, st) folder =
  (if negb needsRefresh then
     match hiddenExpressionPerRoot st !! key with
     | None => true
     | Some cached => negb (equals h1 (original cached) obj)
     end
   else needsRefresh,
   {| hiddenExpressionPerRoot :=
        <[key := {| original := length h1;
                    parsed := glob_parse (deref (h1 ++ [deref h1 obj])
                                            (length h1)) |}]>
          (hiddenExpressionPerRoot st);
      heap := h1 ++ [deref h1 obj] |}).
Proof.
  unfold update_folder. destruct (read_excludes this (heap st) folder).
  reflexivity.
Qed.

(** What holds after the loop has run over the folders [fs], from a closed
    state [st0] with the flag down: the heap has only grown; the cache is
    closed; the flag is up exactly when a folder of [fs] was stale in [st0];
    while the flag is down the cache holds the same raw expressions as in
    [st0]; every folder of [fs] has a fresh copy of its raw expression and
    the matcher compiled from it. *)
Lemma update_invariant (this : Services) (st0 : State)
  (fs : list WorkspaceFolder) :
  cache_closed st0 ->
  (forall folder obj, folder ∈ fs ->
     (getValue this (uri folder) ≫= files) ≫= exclude = Some obj ->
     (obj < length (heap st0))%nat) ->
  let r := fold_left (update_folder this) fs (false, st0) in
  (exists ext, heap (snd r) = heap st0 ++ ext) /\
  cache_closed (snd r) /\
  (fst r = true <-> exists f, f ∈ fs /\ stale this st0 f) /\
  (fst r = false ->
   forall key,
     (fun c => deref (heap (snd r)) (original c))
       <$> (hiddenExpressionPerRoot (snd r) !! key) =
     (fun c => deref (heap st0) (original c))
       <$> (hiddenExpressionPerRoot st0 !! key)) /\
  (keyed_by_uri fs ->
   forall f, f ∈ fs ->
     exists c,
       hiddenExpressionPerRoot (snd r) !! uri_toString (uri f) = Some c /\
       (length (heap st0) <= original c)%nat /\
       heap (snd r) !! original c = Some (raw_excludes this (heap st0) f) /\
       parsed c = glob_parse (raw_excludes this (heap st0) f)).
Proof.
  intros Hcache. induction fs as [| x fs IH] using rev_ind; intros Hconfig r.
  - subst r. cbn. split; [exists []; by rewrite app_nil_r |].
    split; [exact Hcache |]. split.
    + split; [discriminate |]. intros (f & Hf & _). by apply elem_of_nil in Hf.
    + split; [reflexivity |]. intros _ f Hf. by apply elem_of_nil in Hf.
  - subst r. rewrite fold_left_app. cbn [fold_left].
    destruct IH as ([ext Hext] & Hclosed & Hflag & Hview & Hentries).
    { intros folder obj Hin. apply Hconfig. apply elem_of_app. by left. }
    destruct (fold_left (update_folder this) fs (false, st0)) as [nr st].
    cbn [fst snd] in Hext, Hclosed, Hflag, Hview, Hentries.
    rewrite update_folder_eq.
    destruct (read_excludes_spec this (heap st0) ext x) as (ext1 & Hh1 & Hraw).
    { intros obj. apply Hconfig. apply elem_of_app. right.
      by apply list_elem_of_singleton. }
    rewrite <- Hext in Hh1, Hraw.
    set (obj := fst (read_excludes this (heap st) x)) in *.
    set (h1 := snd (read_excludes this (heap st) x)) in *.
    set (key := uri_toString (uri x)).
    set (raw := raw_excludes this (heap st0) x) in *.
    rewrite Hraw, deref_alloc. cbn [fst snd heap hiddenExpressionPerRoot].
    assert (Hold : forall l, (l < length (heap st))%nat ->
                     deref (h1 ++ [raw]) l = deref (heap st) l).
    { intros l Hl. rewrite Hh1, <- app_assoc. by apply deref_app_l. }
    assert (Hlen : (length (heap st0) <= length h1)%nat).
    { rewrite Hh1, Hext, !length_app. lia. }
    assert (Hlen' : (length (heap st) <= length h1)%nat).
    { rewrite Hh1, !length_app. lia. }
    assert (Hcheck : nr = false ->
              match hiddenExpressionPerRoot st !! key with
              | None => true
              | Some cached => negb (equals h1 (original cached) obj)
              end = true <-> stale this st0 x).
    { intros Hnr. specialize (Hview Hnr key). unfold stale. fold key.
      destruct (hiddenExpressionPerRoot st !! key) as [c |] eqn:Hc,
               (hiddenExpressionPerRoot st0 !! key) as [c0 |];
        cbn in Hview; try discriminate; [| tauto].
      injection Hview as Hsame. unfold equals. rewrite Hraw.
      rewrite Hh1, deref_app_l by (by eapply Hclosed).
      rewrite Hsame. fold raw. rewrite negb_true_iff, bool_decide_eq_false.
      reflexivity. }
    split; [| split; [| split; [| split]]].
    + exists (ext ++ ext1 ++ [raw]).
      rewrite Hh1, Hext, <- !app_assoc. reflexivity.
    + intros k c. cbn [hiddenExpressionPerRoot heap]. rewrite length_app.
      rewrite lookup_insert. case_decide as Hk.
      * intros [= <-]. cbn. lia.
      * intros Hc. apply Hclosed in Hc. cbn. lia.
    + destruct nr; cbn [negb].
      * split; [| reflexivity]. intros _.
        destruct (proj1 Hflag eq_refl) as (f & Hf & Hstale).
        exists f. split; [| exact Hstale]. apply elem_of_app. by left.
      * rewrite (Hcheck eq_refl). split.
        -- intros Hstale. exists x. split; [| exact Hstale].
           apply elem_of_app. right. by apply list_elem_of_singleton.
        -- intros (f & Hf & Hstale). apply elem_of_app in Hf as [Hf | Hf].
           ++ assert (false = true) by (apply Hflag; eauto). discriminate.
           ++ apply list_elem_of_singleton in Hf as ->. exact Hstale.
    + destruct nr; cbn [negb]; [discriminate |]. intros Hfresh k.
      assert (Hkept : ~ stale this st0 x).
      { intros Hstale. apply (Hcheck eq_refl) in Hstale.
        rewrite Hstale in Hfresh. discriminate. }
      rewrite lookup_insert. case_decide as Hk.
      * subst k. cbn. rewrite deref_alloc. unfold stale in Hkept. fold key in Hkept.
        destruct (hiddenExpressionPerRoot st0 !! key) as [c0 |];
          [| tauto].
        cbn. f_equal. fold raw in Hkept.
        destruct (decide (deref (heap st0) (original c0) = raw)); [| tauto].
        congruence.
      * rewrite <- (Hview eq_refl k).
        destruct (hiddenExpressionPerRoot st !! k) as [c |] eqn:Hc;
          [| reflexivity].
        cbn. f_equal. apply Hold. by eapply Hclosed.
    + intros Hkeyed f Hf.
      destruct (decide (uri_toString (uri f) = key)) as [Hk | Hk].
      * rewrite Hk, lookup_insert_eq. eexists. split; [reflexivity |].
        cbn [original parsed]. split; [exact Hlen |].
        assert (Huri : uri f = uri x).
        { apply Hkeyed; [exact Hf | | exact Hk].
          apply elem_of_app. right. by apply list_elem_of_singleton. }
        assert (Hsame : raw_excludes this (heap st0) f = raw).
        { unfold raw, raw_excludes. rewrite Huri. reflexivity. }
        rewrite Hsame. split; [apply lookup_alloc | reflexivity].
      * apply elem_of_app in Hf as [Hf | Hf];
          [| apply list_elem_of_singleton in Hf as ->; by destruct Hk].
        destruct (Hentries) with (f := f) as (c & Hc & Hfresh & Hcontent & Hparsed);
          [| exact Hf |].
        { intros f1 f2 H1 H2. apply Hkeyed; apply elem_of_app; by left. }
        exists c. rewrite lookup_insert_ne by (intros Heq; by destruct Hk).
        split; [exact Hc |]. split; [exact Hfresh |]. split; [| exact Hparsed].
        rewrite Hh1, <- app_assoc. rewrite lookup_app_l; [exact Hcontent |].
        by eapply Hclosed.
Qed.

(** C2: from a state without dangling references, [updateConfiguration]
    returns [true] exactly when some current workspace folder is stale in the
    state it starts from: the cache has no entry for it, or the cached raw
    expression is not structurally equal to the raw exclude expression read
    for it now.  Whatever it returns, every current folder then has a cache
    entry whose [original] is a new object (not one of the heap it started
    from, the configuration's own object included) holding the folder's raw
    expression, and whose [parsed] is the matcher compiled from that new
    object; the objects that were there are left as they were. *)
Theorem updateConfiguration_spec (this : Services) (st : State) :
  cache_closed st -> config_closed this st ->
  let r := updateConfiguration this st in
  (fst r = true <-> exists folder, folder ∈ folders this /\ stale this st folder) /\
  (keyed_by_uri (folders this) ->
   forall folder, folder ∈ folders this ->
     exists cached,
       hiddenExpressionPerRoot (snd r) !! uri_toString (uri folder)
         = Some cached /\
       (length (heap st) <= original cached)%nat /\
       heap (snd r) !! original cached
         = Some (raw_excludes this (heap st) folder) /\
       parsed cached = glob_parse (deref (heap (snd r)) (original cached))) /\
  (exists ext, heap (snd r) = heap st ++ ext).
Proof.
  intros Hcache Hconfig r.
  destruct (update_invariant this st (folders this) Hcache Hconfig)
    as (Hgrown & _ & Hflag & _ & Hentries).
  fold (updateConfiguration this st) in Hgrown, Hflag, Hentries.
  fold r in Hgrown, Hflag, Hentries.
  split; [exact Hflag | split; [| exact Hgrown]].
  intros Hkeyed folder Hin.
  destruct (Hentries Hkeyed folder Hin) as (c & Hc & Hnew & Hcontent & Hparsed).
  exists c. split; [exact Hc |]. split; [exact Hnew |].
  split; [exact Hcontent |]. unfold deref. rewrite Hcontent. exact Hparsed.
Qed.

(** The configuration may overwrite its own object afterwards: a copy made
    behind the old end of the heap does not change with it. *)
Lemma copy_outlives_mutation (h : Heap) (obj copy : Loc) (v : IExpression) :
  (obj < copy)%nat -> deref (<[obj := v]> h) copy = deref h copy.
Proof.
  intros Hlt. unfold deref. rewrite list_lookup_insert_ne by lia. reflexivity.
Qed.

End UpdateConfiguration.

Lemma updateConfiguration_spec_witness :
  let r := @FilesFilter.updateConfiguration Examples.plain_uris
             Examples.literal_globs Examples.filter_services
             Examples.fresh_state in
  fst r = true /\
  exists cached,
    FilesFilter.hiddenExpressionPerRoot (snd r) !! "file:///ws" = Some cached /\
    (1 <= FilesFilter.original cached)%nat /\
    FilesFilter.heap (snd r) !! FilesFilter.original cached
      = Some Examples.excludes.
Proof.
  intros r.
  assert (Hcache : FilesFilter.cache_closed Examples.fresh_state).
  { intros key cached Habs. cbn in Habs. rewrite lookup_empty in Habs.
    discriminate. }
  assert (Hconfig : FilesFilter.config_closed Examples.filter_services
                      Examples.fresh_state).
  { intros folder obj _ [= <-]. cbn. lia. }
  assert (Hin : Examples.ws_folder
                  ∈ FilesFilter.folders Examples.filter_services)
    by (apply list_elem_of_singleton; reflexivity).
  destruct (@updateConfiguration_spec Examples.plain_uris
              Examples.literal_globs Examples.filter_services
              Examples.fresh_state Hcache Hconfig)
    as (Hflag & Hentries & _).
  fold r in Hflag, Hentries. split.
  - apply Hflag. exists Examples.ws_folder. split; [exact Hin |].
    unfold FilesFilter.stale. cbn. rewrite lookup_empty. exact I.
  - destruct (Hentries) with (folder := Examples.ws_folder)
      as (cached & Hc & Hnew & Hcontent & _); [| exact Hin |].
    + intros f g Hf Hg _.
      apply list_elem_of_singleton in Hf as ->.
      apply list_elem_of_singleton in Hg as ->. reflexivity.
    + exists cached. split; [exact Hc |]. split; [exact Hnew |]. exact Hcontent.
Defined.

(** A second run over an unchanged configuration asks for no refresh. *)
Example updateConfiguration_again :
  fst (@FilesFilter.updateConfiguration Examples.plain_uris
         Examples.literal_globs Examples.filter_services
         Examples.loaded_state) = false.
Proof. vm_compute. reflexivity. Qed.

(** An edit session over the file "a": Escape with a blur and an Enter
    arriving while the box goes away, then a late blur; [onFinish] is called
    once, with the text and [false]. *)
Example escape_blur_enter :
  FilesRenderer.finished
    (FilesRenderer.run Examples.non_empty
       [FilesRenderer.Input "b";
        FilesRenderer.KeyDown FilesRenderer.Escape
          [FilesRenderer.Blur []; FilesRenderer.KeyDown FilesRenderer.Enter []];
        FilesRenderer.Blur []]
       (FilesRenderer.renderInputBox Examples.file_a))
  = [("b", false)].
Proof. reflexivity. Qed.

Lemma commit_triggers_witness :
  let ask := FilesRenderer.renderInputBox Examples.file_a in
  let blank := FilesRenderer.set_value "" ask in
  FilesRenderer.finished
    (FilesRenderer.dispatch Examples.non_empty
       (FilesRenderer.KeyDown FilesRenderer.Enter []) ask) = [("a", true)] /\
  FilesRenderer.dispatch Examples.non_empty
    (FilesRenderer.KeyDown FilesRenderer.Enter []) blank = blank /\
  FilesRenderer.finished
    (FilesRenderer.dispatch Examples.non_empty
       (FilesRenderer.KeyDown FilesRenderer.Escape []) blank) = [("", false)] /\
  FilesRenderer.finished
    (FilesRenderer.dispatch Examples.non_empty
       (FilesRenderer.Blur []) blank) = [("", false)].
Proof.
  intros ask blank.
  assert (Hask : FilesRenderer.live ask) by (repeat split).
  assert (Hblank : FilesRenderer.live blank) by (repeat split).
  destruct (commit_triggers Examples.non_empty [] ask Hask)
    as (enter_valid & _).
  destruct (commit_triggers Examples.non_empty [] blank Hblank)
    as (_ & enter_invalid & escape & blur).
  split; [exact enter_valid |].
  split; [apply enter_invalid; reflexivity |].
  split; [exact escape | exact blur].
Defined.

(** Typing, then Escape with a blur and an Enter arriving while the box goes
    away, then a late blur: one call of [onFinish], and the input box, the
    two listeners, the label and the styler disposed. *)
Lemma onFinish_at_most_once_witness :
  let s := FilesRenderer.run Examples.non_empty
             [FilesRenderer.Input "b";
              FilesRenderer.KeyDown FilesRenderer.Escape
                [FilesRenderer.Blur [];
                 FilesRenderer.KeyDown FilesRenderer.Enter []];
              FilesRenderer.Blur []]
             (FilesRenderer.renderInputBox Examples.file_a) in
  (length (FilesRenderer.finished s) <= 1)%nat /\
  FilesRenderer.finished s = [("b", false)] /\
  FilesRenderer.disposed s =
    [FilesRenderer.DInputBox; FilesRenderer.DKeyDownListener;
     FilesRenderer.DBlurListener; FilesRenderer.DLabel;
     FilesRenderer.DStyler] /\
  FilesRenderer.labelAttached s = false.
Proof.
  intros s.
  destruct (onFinish_at_most_once Examples.non_empty Examples.file_a
              [FilesRenderer.Input "b";
               FilesRenderer.KeyDown FilesRenderer.Escape
                 [FilesRenderer.Blur [];
                  FilesRenderer.KeyDown FilesRenderer.Enter []];
               FilesRenderer.Blur []])
    as [at_most_once [untouched | (v & success & _ & all_disposed & detached & _ & _)]].
  - destruct untouched as (_ & _ & _ & _ & no_call). discriminate no_call.
  - split; [exact at_most_once |]. split; [reflexivity |].
    split; [exact all_disposed | exact detached].
Defined.

(** * Further properties *)

(** ** ExplorerDataSource.getChildren on every path *)

Section DataSourcePaths.

Import ExplorerDataSource.

(** The children a call settles with. *)
Lemma getChildren_run (this : Services) (element : Element) (w : World) :
  getChildren this element w =
  match element with
  | Roots items => (Fulfilled items, w)
  | Single item =>
      let shown :=
        {| notifications := notifications w;
           progress_delays :=
             progress_delays w ++ [if isRestored this then 800 else 3200] |} in
      match fetchChildren this item with
      | Fulfilled children => (Fulfilled children, shown)
      | Rejected e =>
          (Fulfilled [],
           {| notifications :=
                notifications w ++ (if isRoot item then [] else [e]);
              progress_delays := progress_delays shown |})
      end
  end.
Proof.
  destruct element as [item | items]; [| reflexivity].
  unfold getChildren. destruct (fetchChildren this item) as [children | e].
  - reflexivity.
  - unfold bind at 1. cbn [showWhile]. rewrite then_rejected_recovers.
    cbn [instanceofExplorerItem andb].
    destruct (isRoot item); cbn; [rewrite app_nil_r |]; reflexivity.
Qed.

(** X1: the promise [getChildren] returns is never rejected: it is fulfilled
    with the root list itself, with the fetched children, or with the empty
    list when the fetch was rejected. *)
Theorem getChildren_never_rejects (this : Services) (element : Element)
  (w : World) :
  fst (getChildren this element w) =
  Fulfilled
    match element with
    | Roots items => items
    | Single item =>
        match fetchChildren this item with
        | Fulfilled children => children
        | Rejected _ => []
        end
    end.
Proof.
  rewrite getChildren_run. destruct element as [item | items]; [| reflexivity].
  cbv zeta. destruct (fetchChildren this item); reflexivity.
Qed.

(** X2: [getChildren] reports an error to the notification service only when
    the fetch of a single non-root item was rejected; a root list, a
    successful fetch and a failing root leave the notifications alone. *)
Theorem getChildren_notifies_iff (this : Services) (element : Element)
  (w : World) :
  notifications (snd (getChildren this element w)) <> notifications w <->
  exists item e,
    element = Single item /\ fetchChildren this item = Rejected e /\
    isRoot item = false.
Proof.
  rewrite getChildren_run. destruct element as [item | items]; cbv zeta.
  - destruct (fetchChildren this item) as [children | e] eqn:Hfetch;
      cbn [snd notifications].
    + split; [congruence |]. intros (item' & e & [= <-] & Habs & _).
      congruence.
    + destruct (isRoot item) eqn:Hroot.
      * rewrite app_nil_r. split; [congruence |].
        intros (item' & e' & [= <-] & _ & Habs). congruence.
      * split; [eauto |]. intros _ Heq.
        apply (f_equal length) in Heq. rewrite length_app in Heq.
        cbn in Heq. lia.
  - split; [cbn; congruence |]. intros (item & e & Habs & _). discriminate.
Qed.

(** X3: the progress indicator is requested once for every single item,
    whether its fetch succeeds or fails, with a delay of 800 once the
    workbench is restored and 3200 before; a root list requests none. *)
Theorem getChildren_progress (this : Services) (element : Element) (w : World) :
  progress_delays (snd (getChildren this element w)) =
  progress_delays w ++
  match element with
  | Roots _ => []
  | Single _ => [if isRestored this then 800 else 3200]
  end.
Proof.
  rewrite getChildren_run. destruct element as [item | items]; cbv zeta.
  - destruct (fetchChildren this item); reflexivity.
  - cbn. rewrite app_nil_r. reflexivity.
Qed.

End DataSourcePaths.

(** ** FileSorter.compare in the other modes, and as an ordering *)

Section SorterModes.

Import FilesFilter (WorkspaceFolder, index).
Import FileSorter.

Context {comparers : Comparers}.

(** X4: [compare] fails exactly when both items are roots and one of them
    lies in no workspace folder, where it reads [index] from [null]; in every
    other case it returns a number. *)
Theorem compare_fails_iff (this : Services) (statA statB : ExplorerItem) :
  compare this statA statB = None <->
  isRoot statA = true /\ isRoot statB = true /\
  (getWorkspaceFolder this (resource statA) = None \/
   getWorkspaceFolder this (resource statB) = None).
Proof.
  unfold compare.
  destruct (isRoot statA), (isRoot statB);
    try (split; [discriminate | intros (? & ? & _); discriminate]).
  - destruct (getWorkspaceFolder this (resource statA)) as [folderA |],
             (getWorkspaceFolder this (resource statB)) as [folderB |]; cbn.
    + split; [discriminate | intros (_ & _ & [? | ?]); discriminate].
    + split; [auto | reflexivity].
    + split; [auto | reflexivity].
    + split; [auto | reflexivity].
  - destruct (sort_directories _ _ _);
      (split; [discriminate | intros (? & _); discriminate]).
Qed.

(** X5: in sort mode ['filesFirst'], among non-roots a file comes before a
    directory, and two items of the same kind compare by [compareFileNames]. *)
Theorem compare_filesFirst_mode (this : Services) (statA statB : ExplorerItem) :
  sortOrder this = SortFilesFirst ->
  isRoot statA = false -> isRoot statB = false ->
  compare this statA statB =
  Some (match isDirectory statA, isDirectory statB with
        | true, false => 1
        | false, true => -1
        | _, _ => compareFileNames (name statA) (name statB)
        end).
Proof.
  intros Hmode HA HB. rewrite (compare_non_roots this statA statB HA HB).
  rewrite Hmode. unfold sort_directories, sort_files.
  destruct (isDirectory statA), (isDirectory statB); reflexivity.
Qed.

(** X6: in sort mode ['mixed'] the kind plays no part: any two non-roots
    compare by [compareFileNames]. *)
Theorem compare_mixed_mode (this : Services) (statA statB : ExplorerItem) :
  sortOrder this = SortMixed ->
  isRoot statA = false -> isRoot statB = false ->
  compare this statA statB =
  Some (compareFileNames (name statA) (name statB)).
Proof.
  intros Hmode HA HB. rewrite (compare_non_roots this statA statB HA HB).
  rewrite Hmode. reflexivity.
Qed.

(** X7: in sort mode ['default'], among non-roots a directory comes before a
    file, and two items of the same kind compare by [compareFileNames]. *)
Theorem compare_default_mode (this : Services) (statA statB : ExplorerItem) :
  sortOrder this = SortDefault ->
  isRoot statA = false -> isRoot statB = false ->
  compare this statA statB =
  Some (match isDirectory statA, isDirectory statB with
        | true, false => -1
        | false, true => 1
        | _, _ => compareFileNames (name statA) (name statB)
        end).
Proof.
  intros Hmode HA HB. rewrite (compare_non_roots this statA statB HA HB).
  rewrite Hmode. unfold sort_directories, sort_files.
  destruct (isDirectory statA), (isDirectory statB); reflexivity.
Qed.

(** X8: in sort mode ['modified'], when exactly one of two non-roots of the
    same kind has a modification time, the left operand comes first in either
    order of the operands: neither [<] comparison holds, and the names are
    not consulted. *)
Theorem compare_modified_missing_mtime (this : Services)
  (statA statB : ExplorerItem) (t : Z) :
  sortOrder this = SortModified ->
  isRoot statA = false -> isRoot statB = false ->
  isDirectory statA = isDirectory statB ->
  mtime statA = Some t -> mtime statB = None ->
  compare this statA statB = Some (-1) /\ compare this statB statA = Some (-1).
Proof.
  intros Hmode HA HB Hkind HtA HtB.
  rewrite (compare_non_roots this statA statB HA HB).
  rewrite (compare_non_roots this statB statA HB HA).
  rewrite Hmode. unfold sort_directories, sort_files.
  rewrite Hkind, HtA, HtB.
  destruct (isDirectory statB); split; reflexivity.
Qed.

(** Swapping the operands of the first switch swaps the sign of what it
    returns. *)
Lemma sort_directories_swap (order : SortOrder) (statA statB : ExplorerItem) :
  (forall x y, compareFileNames x y = - compareFileNames y x) ->
  sort_directories order statB statA =
  Z.opp <$> sort_directories order statA statB.
Proof.
  intros Hnames. unfold sort_directories.
  destruct order, (isDirectory statA), (isDirectory statB); cbn;
    try reflexivity.
  rewrite (Hnames (name statB) (name statA)). reflexivity.
Qed.

(** X9: with comparers that change sign when their operands are swapped,
    [compare] does so too, provided that in mode ['modified'] the two items
    both have a modification time or both have none: [compare b a] is the
    opposite of [compare a b]. *)
Theorem compare_swap (this : Services) (statA statB : ExplorerItem) (r : Z) :
  (forall x y, compareFileNames x y = - compareFileNames y x) ->
  (forall x y, compareFileExtensions x y = - compareFileExtensions y x) ->
  (is_Some (mtime statA) <-> is_Some (mtime statB)) ->
  compare this statA statB = Some r ->
  compare this statB statA = Some (- r).
Proof.
  intros Hnames Hexts Htimes. unfold compare.
  destruct (isRoot statA), (isRoot statB).
  - destruct (getWorkspaceFolder this (resource statA)) as [folderA |],
             (getWorkspaceFolder this (resource statB)) as [folderB |];
      cbn; try discriminate.
    intros [= <-]. f_equal. lia.
  - intros [= <-]. reflexivity.
  - intros [= <-]. reflexivity.
  - rewrite (sort_directories_swap _ statA statB Hnames).
    destruct (sort_directories (sortOrder this) statA statB) as [d |]; cbn.
    + intros [= <-]. reflexivity.
    + intros [= <-]. f_equal. unfold sort_files.
      destruct (sortOrder this); try apply Hnames; try apply Hexts.
      unfold strict_neq, less_than.
      destruct (mtime statA) as [tA |], (mtime statB) as [tB |].
      * destruct (decide (tA = tB)) as [-> | Hne].
        -- rewrite !bool_decide_eq_true_2 by reflexivity. apply Hnames.
        -- rewrite !bool_decide_eq_false_2 by congruence. cbn [negb].
           destruct (Z.ltb_spec tA tB), (Z.ltb_spec tB tA); lia.
      * destruct Htimes as [Habs _]. destruct Habs; [eauto | discriminate].
      * destruct Htimes as [_ Habs]. destruct Habs; [eauto | discriminate].
      * rewrite !bool_decide_eq_true_2 by reflexivity. apply Hnames.
Qed.

End SorterModes.

Lemma sign_opp (c : comparison) : Examples.sign (CompOpp c) = - Examples.sign c.
Proof. destruct c; reflexivity. Qed.

Lemma caseless_names_swap (x y : string) :
  @FileSorter.compareFileNames Examples.caseless x y =
  - @FileSorter.compareFileNames Examples.caseless y x.
Proof. cbn. rewrite String.compare_antisym. apply sign_opp. Qed.

Lemma caseless_extensions_swap (x y : string) :
  @FileSorter.compareFileExtensions Examples.caseless x y =
  - @FileSorter.compareFileExtensions Examples.caseless y x.
Proof. cbn. rewrite String.compare_antisym. apply sign_opp. Qed.

Lemma compare_filesFirst_mode_witness :
  let this := Examples.sorter FileSorter.SortFilesFirst in
  @FileSorter.compare Examples.caseless this Examples.dir_B Examples.file_a
    = Some 1 /\
  @FileSorter.compare Examples.caseless this Examples.file_old Examples.file_new
    = Some 1.
Proof.
  intros this. split.
  - apply (@compare_filesFirst_mode Examples.caseless this Examples.dir_B
             Examples.file_a); reflexivity.
  - apply (@compare_filesFirst_mode Examples.caseless this Examples.file_old
             Examples.file_new); reflexivity.
Defined.

Lemma compare_mixed_mode_witness :
  @FileSorter.compare Examples.caseless
    (Examples.sorter FileSorter.SortMixed) Examples.dir_B Examples.file_a
  = Some 1.
Proof.
  apply (@compare_mixed_mode Examples.caseless
           (Examples.sorter FileSorter.SortMixed) Examples.dir_B
           Examples.file_a); reflexivity.
Defined.

Lemma compare_default_mode_witness :
  let this := Examples.sorter FileSorter.SortDefault in
  @FileSorter.compare Examples.caseless this Examples.dir_B Examples.file_a
    = Some (-1) /\
  @FileSorter.compare Examples.caseless this Examples.file_new Examples.file_old
    = Some (-1).
Proof.
  intros this. split.
  - apply (@compare_default_mode Examples.caseless this Examples.dir_B
             Examples.file_a); reflexivity.
  - apply (@compare_default_mode Examples.caseless this Examples.file_new
             Examples.file_old); reflexivity.
Defined.

Lemma compare_modified_missing_mtime_witness :
  let this := Examples.sorter FileSorter.SortModified in
  @FileSorter.compare Examples.caseless this Examples.dir_B
    Examples.node_modules = Some (-1) /\
  @FileSorter.compare Examples.caseless this Examples.node_modules
    Examples.dir_B = Some (-1).
Proof.
  intros this.
  apply (@compare_modified_missing_mtime Examples.caseless this Examples.dir_B
           Examples.node_modules 10); reflexivity.
Defined.

Lemma compare_swap_witness :
  let this := Examples.sorter FileSorter.SortType in
  @FileSorter.compare Examples.caseless this Examples.file_new Examples.file_a
    = Some (- (-1)).
Proof.
  intros this.
  apply (@compare_swap Examples.caseless this Examples.file_a
           Examples.file_new (-1)).
  - exact caseless_names_swap.
  - exact caseless_extensions_swap.
  - split; intros _; eexists; reflexivity.
  - reflexivity.
Defined.

(** ** FilesRenderer: more on the edit session *)

Section RendererTraces.

Import FilesRenderer.

Variable editableData : IEditableData.

Lemma validate_truthy (s : Session) :
  validate editableData s =
  negb (truthy (validationMessage editableData (value s))).
Proof.
  unfold validate, validation.
  destruct (validationMessage editableData (value s)) as [msg |];
    [| reflexivity].
  cbn [truthy]. destruct (msg =? "")%string; reflexivity.
Qed.

(** X11: [onFinish] is only ever called from the Enter key on a text that
    validates, from the Escape key, or from a blur: any other key, and
    typing, leave the list of calls as it is. *)
Theorem completion_needs_trigger (e : DomEvent) (s : Session) :
  finished (dispatch editableData e s) <> finished s ->
  (exists nested, e = KeyDown Enter nested /\
     truthy (validationMessage editableData (value s)) = false) \/
  (exists nested, e = KeyDown Escape nested) \/
  (exists nested, e = Blur nested).
Proof.
  destruct e as [k nested | nested | text]; cbn [dispatch].
  - destruct (is_disposed DKeyDownListener s); [congruence |].
    destruct k.
    + rewrite validate_truthy.
      destruct (truthy (validationMessage editableData (value s)));
        cbn [negb]; [congruence |].
      intros _. left. exists nested. split; reflexivity.
    + intros _. right. left. exists nested. reflexivity.
    + congruence.
  - intros _. right. right. exists nested. reflexivity.
  - destruct (is_disposed DInputBox s); [congruence |]. cbn. congruence.
Qed.

Lemma run_completed (es : list DomEvent) (s : Session) (v : string)
  (success : bool) :
  completed s v success -> run editableData es s = s.
Proof.
  intros Hcompleted. induction es as [| e es IH]; [reflexivity |].
  cbn [run fold_left].
  rewrite (dispatch_completed editableData e s v success Hcompleted).
  exact IH.
Qed.

(** X12: a completed session is inert: no later event, in whatever number
    and nesting, changes the text, the disposals or the one call of
    [onFinish], the listeners being gone with the input box. *)
Theorem completed_inert (es : list DomEvent) (s : Session) (v : string)
  (success : bool) :
  completed s v success ->
  run editableData es s = s /\
  finished (run editableData es s) = [(v, success)].
Proof.
  intros Hcompleted. rewrite (run_completed es s v success Hcompleted).
  split; [reflexivity |]. destruct Hcompleted as (_ & _ & _ & _ & Hfin).
  exact Hfin.
Qed.

Lemma dispatch_live_valid (e : DomEvent) (s : Session) :
  live s ->
  live (dispatch editableData e s) \/
  exists v b,
    completed (dispatch editableData e s) v b /\
    (b = true -> truthy (validationMessage editableData v) = false).
Proof.
  intros Hlive.
  assert (Hdone : forall nested success blur,
            (success = true ->
             truthy (validationMessage editableData (value s)) = false) ->
            exists v b,
              completed (done (run editableData nested) success blur s) v b /\
              (b = true -> truthy (validationMessage editableData v) = false)).
  { intros nested success blur Hvalid.
    destruct (done_live editableData nested success blur s Hlive) as [v Hv].
    exists (value s), success. rewrite Hv. split; [repeat split | exact Hvalid]. }
  destruct e as [k nested | nested | text]; cbn [dispatch].
  - destruct (is_disposed DKeyDownListener s); [left; exact Hlive |].
    destruct k.
    + destruct (validate editableData s) eqn:Hvalid; [| left; exact Hlive].
      right. apply Hdone. intros _. rewrite validate_truthy in Hvalid.
      apply negb_true_iff in Hvalid. exact Hvalid.
    + right. apply Hdone. discriminate.
    + left. exact Hlive.
  - destruct (is_disposed DBlurListener s); [left; exact Hlive |].
    right. apply Hdone. unfold isInputValid. fold (validate editableData s).
    rewrite validate_truthy. intros Hvalid. apply negb_true_iff in Hvalid.
    exact Hvalid.
  - left. destruct (is_disposed DInputBox s); [exact Hlive |].
    destruct s; exact Hlive.
Qed.

Lemma run_live_valid (es : list DomEvent) (s : Session) :
  live s ->
  live (run editableData es s) \/
  exists v b,
    completed (run editableData es s) v b /\
    (b = true -> truthy (validationMessage editableData v) = false).
Proof.
  revert s. induction es as [| e es IH]; intros s Hlive; [left; exact Hlive |].
  cbn [run fold_left].
  destruct (dispatch_live_valid e s Hlive) as [Hstill | (v & b & Hdone & Hok)].
  - apply IH. exact Hstill.
  - right. exists v, b.
    fold (run editableData es (dispatch editableData e s)).
    rewrite (run_completed es _ v b Hdone). split; assumption.
Qed.

(** X13: whatever happens in an edit session, [onFinish] is called with
    success [true] only for a text the validator has no message for: a
    committed name is a valid name. *)
Theorem success_means_valid (stat : ExplorerItem) (es : list DomEvent)
  (v : string) :
  finished (run editableData es (renderInputBox stat)) = [(v, true)] ->
  truthy (validationMessage editableData v) = false.
Proof.
  intros Hfin.
  destruct (run_live_valid es (renderInputBox stat)
              (renderInputBox_live stat))
    as [(_ & _ & _ & _ & Hnone) | (v' & b & Hdone & Hok)].
  - rewrite Hnone in Hfin. discriminate.
  - destruct Hdone as (_ & _ & _ & _ & Hone). rewrite Hone in Hfin.
    injection Hfin as -> ->. apply Hok. reflexivity.
Qed.

Lemma last_cons (text d : string) (texts : list string) :
  List.last (text :: texts) d = List.last texts text.
Proof.
  revert text d. induction texts as [| t texts IH]; intros text d;
    [reflexivity |].
  change (List.last (text :: t :: texts) d) with (List.last (t :: texts) d).
  rewrite !IH. reflexivity.
Qed.

(** Typing only changes the text of a live session. *)
Lemma run_typing (texts : list string) (s : Session) :
  live s ->
  run editableData (Input <$> texts) s =
  set_value (List.last texts (value s)) s.
Proof.
  revert s. induction texts as [| text texts IH]; intros s Hlive.
  - cbn. symmetry. apply set_value_same.
  - cbn [fmap list_fmap run fold_left dispatch].
    assert (Hbox : is_disposed DInputBox s = false).
    { unfold is_disposed. destruct Hlive as (_ & -> & _). reflexivity. }
    rewrite Hbox. fold (run editableData (Input <$> texts) (set_value text s)).
    rewrite IH by (destruct s; exact Hlive).
    rewrite last_cons. reflexivity.
Qed.

(** X14: the text [onFinish] receives is the one in the box when the trigger
    arrives: after any typing, Escape reports the text typed last (the name
    of the item when nothing was typed) with [false], and a blur reports it
    with its validity; events arriving during the teardown do not alter
    it. *)
Theorem onFinish_reports_typed_text (stat : ExplorerItem)
  (texts : list string) (nested : list DomEvent) :
  let text := List.last texts (name stat) in
  finished (run editableData ((Input <$> texts) ++ [KeyDown Escape nested])
              (renderInputBox stat)) = [(text, false)] /\
  finished (run editableData ((Input <$> texts) ++ [Blur nested])
              (renderInputBox stat))
    = [(text, negb (truthy (validationMessage editableData text)))].
Proof.
  intros text. unfold run. rewrite !fold_left_app.
  fold (run editableData (Input <$> texts) (renderInputBox stat)).
  rewrite (run_typing texts _ (renderInputBox_live stat)).
  change (value (renderInputBox stat)) with (name stat). fold text.
  set (s := set_value text (renderInputBox stat)).
  assert (Hlive : live s) by (repeat split).
  cbn [fold_left dispatch].
  change (is_disposed DKeyDownListener s) with false.
  change (is_disposed DBlurListener s) with false. cbv iota.
  change (fun s' => fold_left
            (fun acc e' => dispatch editableData e' acc) nested s')
    with (run editableData nested).
  destruct (done_live editableData nested false false s Hlive) as [v1 H1].
  destruct (done_live editableData nested (isInputValid editableData s)
              true s Hlive) as [v2 H2].
  rewrite H1, H2. cbn [finished].
  unfold isInputValid. fold (validate editableData s).
  rewrite validate_truthy. split; reflexivity.
Qed.

End RendererTraces.

Lemma completion_needs_trigger_witness :
  (exists nested,
     FilesRenderer.KeyDown FilesRenderer.Escape [] =
     FilesRenderer.KeyDown FilesRenderer.Enter nested /\
     truthy (validationMessage Examples.non_empty "a") = false) \/
  (exists nested,
     FilesRenderer.KeyDown FilesRenderer.Escape [] =
     FilesRenderer.KeyDown FilesRenderer.Escape nested) \/
  (exists nested,
     FilesRenderer.KeyDown FilesRenderer.Escape [] = FilesRenderer.Blur nested).
Proof.
  apply (completion_needs_trigger Examples.non_empty
           (FilesRenderer.KeyDown FilesRenderer.Escape [])
           (FilesRenderer.renderInputBox Examples.file_a)).
  discriminate.
Defined.

Lemma completed_inert_witness :
  let s := FilesRenderer.dispatch Examples.non_empty (FilesRenderer.Blur [])
             (FilesRenderer.renderInputBox Examples.file_a) in
  let late := [FilesRenderer.KeyDown FilesRenderer.Escape [];
               FilesRenderer.Input "b"; FilesRenderer.Blur []] in
  FilesRenderer.run Examples.non_empty late s = s /\
  FilesRenderer.finished (FilesRenderer.run Examples.non_empty late s)
    = [("a", true)].
Proof.
  intros s late.
  apply (completed_inert Examples.non_empty late s "a" true).
  repeat split.
Defined.

Lemma success_means_valid_witness :
  truthy (validationMessage Examples.non_empty "b") = false.
Proof.
  apply (success_means_valid Examples.non_empty Examples.file_a
           [FilesRenderer.Input "b";
            FilesRenderer.KeyDown FilesRenderer.Enter []] "b").
  reflexivity.
Defined.

(** ** FilesFilter: the cache over several runs, and the filter on top of it *)

Section FilterRuns.

Import FilesFilter.

Context {uris : UriLib} {globs : GlobLib} {paths : PathLib}.

(** The loop only writes under the keys of the folders it visits. *)
Lemma update_lookup (this : Services) (fs : list WorkspaceFolder)
  (acc : bool * State) (key : string) :
  (forall f, f ∈ fs -> uri_toString (uri f) <> key) ->
  hiddenExpressionPerRoot (snd (fold_left (update_folder this) fs acc)) !! key
  = hiddenExpressionPerRoot (snd acc) !! key.
Proof.
  revert acc. induction fs as [| x fs IH]; intros [nr st] Hother;
    [reflexivity |].
  cbn [fold_left]. rewrite IH.
  - rewrite update_folder_eq. cbn [snd hiddenExpressionPerRoot].
    apply lookup_insert_ne. apply Hother. left.
  - intros f Hf. apply Hother. right. exact Hf.
Qed.

Lemma update_domain (this : Services) (fs : list WorkspaceFolder)
  (acc : bool * State) (key : string) :
  is_Some (hiddenExpressionPerRoot
             (snd (fold_left (update_folder this) fs acc)) !! key) <->
  is_Some (hiddenExpressionPerRoot (snd acc) !! key) \/
  exists f, f ∈ fs /\ uri_toString (uri f) = key.
Proof.
  revert acc. induction fs as [| x fs IH]; intros [nr st].
  - cbn. split; [auto |]. intros [Hin | (f & Hf & _)]; [exact Hin |].
    by apply elem_of_nil in Hf.
  - cbn [fold_left]. rewrite IH, update_folder_eq.
    cbn [snd hiddenExpressionPerRoot]. rewrite lookup_insert.
    case_decide as Hkey.
    + split; [| intros _; left; eauto].
      intros _. right. exists x. split; [left | exact Hkey].
    + split.
      * intros [Hin | (f & Hf & Hk)]; [left; exact Hin |].
        right. exists f. split; [right; exact Hf | exact Hk].
      * intros [Hin | (f & Hf & Hk)]; [left; exact Hin |].
        apply elem_of_cons in Hf as [-> | Hf]; [contradiction |].
        right. exists f. split; assumption.
Qed.

(** X15: [updateConfiguration] never evicts: an entry under a key that
    belongs to no current workspace folder (a folder that was removed) stays
    as it was, and afterwards the cache has an entry exactly for the keys it
    had before and the keys of the current folders. *)
Theorem updateConfiguration_keeps_entries (this : Services) (st : State)
  (key : string) :
  ((forall f, f ∈ folders this -> uri_toString (uri f) <> key) ->
   hiddenExpressionPerRoot (snd (updateConfiguration this st)) !! key
   = hiddenExpressionPerRoot st !! key) /\
  (is_Some (hiddenExpressionPerRoot (snd (updateConfiguration this st)) !! key)
   <->
   is_Some (hiddenExpressionPerRoot st !! key) \/
   exists f, f ∈ folders this /\ uri_toString (uri f) = key).
Proof.
  split.
  - apply (update_lookup this (folders this) (false, st) key).
  - apply (update_domain this (folders this) (false, st) key).
Qed.

(** The raw expression of a folder does not change when the heap grows. *)
Lemma raw_excludes_grown (this : Services) (h ext : Heap)
  (folder : WorkspaceFolder) :
  (forall obj, (getValue this (uri folder) ≫= files) ≫= exclude = Some obj ->
               (obj < length h)%nat) ->
  raw_excludes this (h ++ ext) folder = raw_excludes this h folder.
Proof.
  intros Hclosed. unfold raw_excludes.
  destruct ((getValue this (uri folder) ≫= files) ≫= exclude) as [obj |];
    [| reflexivity].
  apply deref_app_l. apply Hclosed. reflexivity.
Qed.

(** X16: run twice in a row over the same configuration and folders, the
    second [updateConfiguration] returns [false]: the copies the first run
    stored compare equal to what the configuration still holds. *)
Theorem updateConfiguration_settles (this : Services) (st : State) :
  cache_closed st -> config_closed this st -> keyed_by_uri (folders this) ->
  fst (updateConfiguration this (snd (updateConfiguration this st))) = false.
Proof.
  intros Hcache Hconfig Hkeyed. unfold updateConfiguration.
  destruct (update_invariant this st (folders this) Hcache Hconfig)
    as ([ext Hgrown] & Hclosed1 & _ & _ & Hentries).
  set (st1 := snd (fold_left (update_folder this) (folders this) (false, st)))
    in *.
  assert (Hconfig1 : config_closed this st1).
  { intros folder obj Hin Hobj. rewrite Hgrown, length_app.
    specialize (Hconfig folder obj Hin Hobj). lia. }
  destruct (update_invariant this st1 (folders this) Hclosed1 Hconfig1)
    as (_ & _ & Hflag & _).
  destruct (fst (fold_left (update_folder this) (folders this) (false, st1)));
    [| reflexivity].
  destruct (proj1 Hflag eq_refl) as (f & Hf & Hstale). exfalso.
  destruct (Hentries Hkeyed f Hf) as (c & Hc & _ & Hcontent & _).
  unfold stale in Hstale. rewrite Hc in Hstale. apply Hstale.
  unfold deref at 1. rewrite Hcontent. cbn [default]. rewrite Hgrown.
  symmetry. apply raw_excludes_grown. intros obj. apply Hconfig. exact Hf.
Qed.

(** X17: the configuration overwrites its exclude object in place after a
    run; the cache kept a copy, so the next [updateConfiguration] sees the
    difference and returns [true]. *)
Theorem updateConfiguration_detects_mutation (this : Services) (st : State)
  (folder : WorkspaceFolder) (obj : Loc) (v : IExpression) :
  cache_closed st -> config_closed this st -> keyed_by_uri (folders this) ->
  folder ∈ folders this ->
  (getValue this (uri folder) ≫= files) ≫= exclude = Some obj ->
  v <> deref (heap st) obj ->
  let st1 := snd (updateConfiguration this st) in
  let mutated := {| hiddenExpressionPerRoot := hiddenExpressionPerRoot st1;
                    heap := <[obj := v]> (heap st1) |} in
  fst (updateConfiguration this mutated) = true.
Proof.
  intros Hcache Hconfig Hkeyed Hin Hobj Hnew st1 mutated.
  unfold updateConfiguration in *.
  destruct (update_invariant this st (folders this) Hcache Hconfig)
    as ([ext Hgrown] & Hclosed1 & _ & _ & Hentries).
  fold st1 in Hgrown, Hclosed1, Hentries.
  assert (Hlt : (obj < length (heap st))%nat) by (eapply Hconfig; eauto).
  assert (Hclosed2 : cache_closed mutated).
  { intros k c Hc. cbn [heap mutated]. rewrite length_insert.
    eapply Hclosed1. exact Hc. }
  assert (Hconfig2 : config_closed this mutated).
  { intros f o Hf Ho. cbn [heap mutated].
    rewrite length_insert, Hgrown, length_app.
    specialize (Hconfig f o Hf Ho). lia. }
  destruct (update_invariant this mutated (folders this) Hclosed2 Hconfig2)
    as (_ & _ & Hflag & _).
  apply Hflag. exists folder. split; [exact Hin |].
  destruct (Hentries Hkeyed folder Hin) as (c & Hc & Hfresh & Hcontent & _).
  unfold stale. cbn [hiddenExpressionPerRoot heap mutated]. rewrite Hc.
  unfold raw_excludes. rewrite Hobj. unfold deref.
  rewrite list_lookup_insert_ne by lia. rewrite Hcontent.
  rewrite list_lookup_insert_eq by (rewrite Hgrown, length_app; lia).
  cbn [default]. unfold raw_excludes. rewrite Hobj.
  intros Heq. apply Hnew. symmetry. exact Heq.
Qed.

(** X18: after [updateConfiguration], a plain item (no root, not edited,
    parent not hidden) under the root of a current workspace folder is hidden
    exactly when the matcher compiled from that folder's present raw exclude
    expression matches on the item's path relative to the path of its root,
    normalized, on its name, and on the probe for children of its parent. *)
Theorem filter_after_update (this : Services) (st : State)
  (folder : WorkspaceFolder) (stat : ExplorerItem)
  (parentVisibility : TreeVisibility) :
  cache_closed st -> config_closed this st -> keyed_by_uri (folders this) ->
  folder ∈ folders this -> root_resource stat = uri folder ->
  parentVisibility <> Hidden ->
  getEditableData this stat = None -> isRoot stat = false ->
  visible (filter this (snd (updateConfiguration this st)) stat
             parentVisibility) =
  negb (truthy (glob_parse (raw_excludes this (heap st) folder)
                  (normalize
                     (path_relative (path (root_resource stat))
                        (path (resource stat))) true)
                  (name stat)
                  (fun sibling =>
                     bool_decide (is_Some (parent_children stat !! sibling))))).
Proof.
  intros Hcache Hconfig Hkeyed Hin Hroot Hshown Hedit Hplain.
  rewrite (filter_shown_parent _ _ _ _ Hshown).
  rewrite (filter_plain_item _ _ _ Hedit Hplain).
  unfold updateConfiguration.
  destruct (update_invariant this st (folders this) Hcache Hconfig)
    as (_ & _ & _ & _ & Hentries).
  destruct (Hentries Hkeyed folder Hin) as (c & Hc & _ & _ & Hparsed).
  rewrite <- Hroot in Hc. rewrite Hc. cbn [visible]. rewrite Hparsed.
  reflexivity.
Qed.


(** X20: [filter] reads the parent's visibility only to see whether it is
    [Hidden]: under a [Visible] and under a [Recurse] parent an item gets the
    same answer through the same matcher call. *)
Theorem filter_parent_shown (this : Services) (st : State)
  (stat : ExplorerItem) (parentVisibility parentVisibility' : TreeVisibility) :
  parentVisibility <> Hidden -> parentVisibility' <> Hidden ->
  filter this st stat parentVisibility = filter this st stat parentVisibility'.
Proof.
  intros Hshown Hshown'.
  rewrite (filter_shown_parent _ _ _ _ Hshown).
  rewrite (filter_shown_parent _ _ _ _ Hshown'). reflexivity.
Qed.

End FilterRuns.

Lemma fresh_state_cache_closed : FilesFilter.cache_closed Examples.fresh_state.
Proof.
  intros key cached Habs. cbn in Habs. rewrite lookup_empty in Habs.
  discriminate.
Qed.

Lemma fresh_state_config_closed :
  FilesFilter.config_closed Examples.filter_services Examples.fresh_state.
Proof. intros folder obj _ [= <-]. cbn. lia. Qed.

Lemma one_folder_keyed :
  @FilesFilter.keyed_by_uri Examples.plain_uris
    (FilesFilter.folders Examples.filter_services).
Proof.
  intros f g Hf Hg _.
  apply list_elem_of_singleton in Hf as ->.
  apply list_elem_of_singleton in Hg as ->. reflexivity.
Qed.

Lemma ws_folder_current :
  Examples.ws_folder ∈ FilesFilter.folders Examples.filter_services.
Proof. apply list_elem_of_singleton. reflexivity. Qed.

Lemma updateConfiguration_settles_witness :
  fst (@FilesFilter.updateConfiguration Examples.plain_uris
         Examples.literal_globs Examples.filter_services
         (snd (@FilesFilter.updateConfiguration Examples.plain_uris
                 Examples.literal_globs Examples.filter_services
                 Examples.fresh_state))) = false.
Proof.
  apply (@updateConfiguration_settles Examples.plain_uris
           Examples.literal_globs Examples.filter_services
           Examples.fresh_state).
  - exact fresh_state_cache_closed.
  - exact fresh_state_config_closed.
  - exact one_folder_keyed.
Defined.

Lemma updateConfiguration_detects_mutation_witness :
  let st1 := Examples.loaded_state in
  fst (@FilesFilter.updateConfiguration Examples.plain_uris
         Examples.literal_globs Examples.filter_services
         {| FilesFilter.hiddenExpressionPerRoot :=
              FilesFilter.hiddenExpressionPerRoot st1;
            FilesFilter.heap := <[0%nat := ∅]> (FilesFilter.heap st1) |})
  = true.
Proof.
  apply (@updateConfiguration_detects_mutation Examples.plain_uris
           Examples.literal_globs Examples.filter_services
           Examples.fresh_state Examples.ws_folder 0%nat ∅).
  - exact fresh_state_cache_closed.
  - exact fresh_state_config_closed.
  - exact one_folder_keyed.
  - exact ws_folder_current.
  - reflexivity.
  - intros Habs. apply (f_equal (fun m => m !! "node_modules")) in Habs.
    vm_compute in Habs. discriminate.
Defined.

Lemma unread_cache_closed : FilesFilter.cache_closed Workspace.unread.
Proof.
  intros key cached Habs. cbn in Habs. rewrite lookup_empty in Habs.
  discriminate.
Qed.

Lemma unread_config_closed :
  FilesFilter.config_closed Workspace.services Workspace.unread.
Proof. intros folder obj _ [= <-]. cbn. lia. Qed.

Lemma workspace_keyed :
  @FilesFilter.keyed_by_uri Examples.plain_uris
    (FilesFilter.folders Workspace.services).
Proof.
  intros f g Hf Hg _.
  apply list_elem_of_singleton in Hf as ->.
  apply list_elem_of_singleton in Hg as ->. reflexivity.
Qed.

Lemma workspace_folder_current :
  Examples.ws_folder ∈ FilesFilter.folders Workspace.services.
Proof. apply list_elem_of_singleton. reflexivity. Qed.

(** After the first run over the workspace [/ws], [/ws/src/app.js] is hidden
    (the pattern [src/app.js] matches its root-relative path and its sibling
    [app.ts] exists) and [/ws/src/lone.js] is visible (no [lone.ts]). *)
Lemma filter_after_update_witness :
  let updated :=
    snd (@FilesFilter.updateConfiguration Examples.plain_uris
           Examples.literal_globs Workspace.services Workspace.unread) in
  FilesFilter.visible
    (@FilesFilter.filter Examples.plain_uris Workspace.posix_paths
       Workspace.services updated Workspace.app_js FilesFilter.Visible)
    = false /\
  FilesFilter.visible
    (@FilesFilter.filter Examples.plain_uris Workspace.posix_paths
       Workspace.services updated Workspace.lone_js FilesFilter.Visible)
    = true.
Proof.
  intros updated. split.
  - apply (@filter_after_update Examples.plain_uris Examples.literal_globs
             Workspace.posix_paths Workspace.services Workspace.unread
             Examples.ws_folder Workspace.app_js FilesFilter.Visible);
      [exact unread_cache_closed | exact unread_config_closed
      | exact workspace_keyed | exact workspace_folder_current
      | reflexivity | discriminate | reflexivity | reflexivity].
  - apply (@filter_after_update Examples.plain_uris Examples.literal_globs
             Workspace.posix_paths Workspace.services Workspace.unread
             Examples.ws_folder Workspace.lone_js FilesFilter.Visible);
      [exact unread_cache_closed | exact unread_config_closed
      | exact workspace_keyed | exact workspace_folder_current
      | reflexivity | discriminate | reflexivity | reflexivity].
Defined.

Lemma filter_parent_shown_witness :
  @FilesFilter.filter Examples.plain_uris Examples.plain_paths
    Examples.filter_services Examples.loaded_state Examples.node_modules
    FilesFilter.Visible
  = @FilesFilter.filter Examples.plain_uris Examples.plain_paths
      Examples.filter_services Examples.loaded_state Examples.node_modules
      FilesFilter.Recurse.
Proof.
  apply (@filter_parent_shown Examples.plain_uris Examples.plain_paths
           Examples.filter_services Examples.loaded_state
           Examples.node_modules FilesFilter.Visible FilesFilter.Recurse);
    discriminate.
Defined.

(** ** FilesRenderer: configuration, templates and the selection *)

Section RendererView.

Import FilesRendererView.

Lemma last_shift {A} (x d : A) (l : list A) :
  List.last (x :: l) d = List.last l x.
Proof.
  revert x d. induction l as [| y l IH]; intros x d; [reflexivity |].
  change (List.last (x :: y :: l) d) with (List.last (y :: l) d).
  rewrite !IH. reflexivity.
Qed.

Lemma config_after_changes (events : list ConfigurationChange) (this : Renderer) :
  configListener_disposed this = false ->
  config (fold_left onDidChangeConfiguration events this) =
  List.last
    (current <$> List.filter (fun e => affectsConfiguration e "explorer") events)
    (config this).
Proof.
  revert this. induction events as [| e events IH]; intros this Hlive;
    [reflexivity |].
  cbn [fold_left List.filter]. unfold onDidChangeConfiguration at 2.
  rewrite Hlive. destruct (affectsConfiguration e "explorer").
  - rewrite IH by reflexivity. cbn [fmap list_fmap config].
    rewrite last_shift. reflexivity.
  - apply IH. exact Hlive.
Qed.

Lemma changes_after_dispose (events : list ConfigurationChange) (this : Renderer) :
  configListener_disposed this = true ->
  fold_left onDidChangeConfiguration events this = this.
Proof.
  intros Hgone. induction events as [| e events IH]; [reflexivity |].
  cbn [fold_left]. unfold onDidChangeConfiguration at 2. rewrite Hgone.
  exact IH.
Qed.

(** X21: the renderer's [config] is the configuration read at the latest
    change event that affected ['explorer'], or the one read by the
    constructor when there was none; events that affect other sections do not
    refresh it, and after [dispose] no event changes it any more. *)
Theorem config_follows_explorer_changes (initial : Configuration)
  (events later : list ConfigurationChange) :
  let this := fold_left onDidChangeConfiguration events (constructor initial) in
  config this =
    List.last
      (current <$>
         List.filter (fun e => affectsConfiguration e "explorer") events)
      initial /\
  fold_left onDidChangeConfiguration later (dispose this) = dispose this.
Proof.
  intros this. split.
  - apply (config_after_changes events (constructor initial)). reflexivity.
  - apply changes_after_dispose. reflexivity.
Qed.

Section Templates.

Variable this : Renderer.
Variable getEditableData : ExplorerItem -> option IEditableData.

Lemma dispose_element_all (t : TemplateData) :
  accounted t ->
  forall id, (id < listeners (dispose_element t))%nat ->
    id ∈ disposed_listeners (dispose_element t).
Proof.
  intros [Hall Hcurrent] id Hid. unfold dispose_element in *.
  destruct (elementDisposable t) as [| current] eqn:Hheld.
  - destruct (Hall id Hid) as [Hin | Habs]; [exact Hin | congruence].
  - cbn in *. apply elem_of_app.
    destruct (Hall id Hid) as [Hin | [= ->]]; [left; exact Hin |].
    right. by apply list_elem_of_singleton.
Qed.

Lemma dispose_element_listeners (t : TemplateData) :
  listeners (dispose_element t) = listeners t.
Proof. unfold dispose_element. destruct (elementDisposable t); reflexivity. Qed.

Lemma dispose_element_held (t : TemplateData) :
  elementDisposable (dispose_element t) = elementDisposable t.
Proof.
  unfold dispose_element.
  destruct (elementDisposable t) eqn:Hheld; [exact Hheld | reflexivity].
Qed.

Lemma call_accounted (t : TemplateData) (c : TemplateCall) :
  accounted t -> accounted (call this getEditableData t c).
Proof.
  intros Hacc. pose proof (dispose_element_all t Hacc) as Hall.
  destruct c as [stat |]; cbn [call].
  - unfold renderElement. cbv zeta.
    destruct (getEditableData stat) as [editableData |]; split; cbn.
    + intros id Hid. left. apply Hall. exact Hid.
    + discriminate.
    + intros id Hid. destruct (decide (id = listeners (dispose_element t)))
        as [-> | Hne]; [right; reflexivity |].
      left. apply Hall. lia.
    + intros id [= <-]. lia.
  - unfold disposeTemplate. cbv zeta. split; cbn.
    + intros id Hid. left. apply Hall. exact Hid.
    + intros id Hheld. rewrite dispose_element_listeners.
      destruct Hacc as [_ Hcurrent]. apply Hcurrent.
      rewrite dispose_element_held in Hheld. exact Hheld.
Qed.

Lemma calls_accounted (calls : list TemplateCall) (t : TemplateData) :
  accounted t -> accounted (fold_left (call this getEditableData) calls t).
Proof.
  revert t. induction calls as [| c calls IH]; intros t Hacc; [exact Hacc |].
  cbn [fold_left]. apply IH. apply call_accounted. exact Hacc.
Qed.

(** X22: a row template leaks no render listener: after any sequence of
    [renderElement] and [disposeTemplate] calls, every listener that
    [label.onDidRender] handed out has been disposed, except possibly the one
    the template holds at the moment; and [disposeTemplate] disposes that one
    too. *)
Theorem template_listeners_released (calls : list TemplateCall) :
  let t := fold_left (call this getEditableData) calls renderTemplate in
  (forall id, (id < listeners t)%nat ->
     id ∈ disposed_listeners t \/ elementDisposable t = RenderListener id) /\
  (forall id, (id < listeners (disposeTemplate t))%nat ->
     id ∈ disposed_listeners (disposeTemplate t)).
Proof.
  intros t.
  assert (Hacc : accounted t).
  { apply calls_accounted. split; [cbn; lia | discriminate]. }
  split; [exact (proj1 Hacc) |].
  intros id Hid. unfold disposeTemplate in *. cbn in *.
  apply (dispose_element_all t Hacc). exact Hid.
Qed.



End Templates.

End RendererView.

(** ** The selection [renderInputBox] puts on the name *)

Section Selection.

Import FilesRendererView.

Lemma lastIndexOf_bounds (c : Ascii.ascii) (value : string) :
  -1 <= lastIndexOf c value < Z.of_nat (String.length value).
Proof.
  induction value as [| a rest IH]; cbn [lastIndexOf String.length]; [lia |].
  destruct (Z.leb_spec 0 (lastIndexOf c rest)); [lia |].
  destruct (Ascii.eqb a c); lia.
Qed.

Lemma lastIndexOf_found (c : Ascii.ascii) (value : string) :
  0 <= lastIndexOf c value ->
  String.get (Z.to_nat (lastIndexOf c value)) value = Some c.
Proof.
  induction value as [| a rest IH]; cbn [lastIndexOf]; [lia |].
  destruct (Z.leb_spec 0 (lastIndexOf c rest)) as [Hlater | Hnone].
  - intros _. replace (Z.to_nat (1 + lastIndexOf c rest))
      with (S (Z.to_nat (lastIndexOf c rest))) by lia.
    cbn [String.get]. apply IH. exact Hlater.
  - destruct (Ascii.eqb_spec a c) as [-> | Hne]; [reflexivity | lia].
Qed.

Lemma lastIndexOf_last (c : Ascii.ascii) (value : string) (i : nat) :
  lastIndexOf c value < Z.of_nat i -> String.get i value <> Some c.
Proof.
  revert i. induction value as [| a rest IH]; intros i; [discriminate |].
  cbn [lastIndexOf].
  destruct (Z.leb_spec 0 (lastIndexOf c rest)) as [Hlater | Hnone].
  - destruct i as [| j]; [lia |]. intros Hlt. cbn [String.get].
    apply IH. lia.
  - destruct i as [| j].
    + destruct (Ascii.eqb_spec a c) as [-> | Hne]; [lia |].
      intros _ [= Heq]. contradiction.
    + intros _. cbn [String.get]. apply IH. lia.
Qed.

(** X24: the selection always lies within the text: it starts at 0 and
    ends between 0 and the length of the name.  It covers the whole name
    exactly for a directory and for a name with no dot after its first
    character (no dot at all, or only a leading one). *)
Theorem selection_range (stat : ExplorerItem) :
  let len := Z.of_nat (String.length (name stat)) in
  range_start (selection stat) = 0 /\
  0 <= range_end (selection stat) <= len /\
  (range_end (selection stat) = len <->
   isDirectory stat = true \/
   forall i, (0 < i)%nat -> String.get i (name stat) <> Some dot).
Proof.
  intros len. unfold selection. cbn [range_start range_end].
  pose proof (lastIndexOf_bounds dot (name stat)) as Hbounds. fold len in Hbounds.
  split; [reflexivity |].
  destruct (Z.ltb_spec 0 (lastIndexOf dot (name stat))) as [Hdot | Hnodot];
    destruct (isDirectory stat); cbn [andb negb].
  - split; [lia |]. split; [auto | reflexivity].
  - split; [lia |]. split; [lia |].
    intros [Habs | Hnone]; [discriminate |]. exfalso.
    apply (Hnone (Z.to_nat (lastIndexOf dot (name stat)))); [lia |].
    apply lastIndexOf_found. lia.
  - split; [lia |]. split; [auto | reflexivity].
  - split; [lia |]. split; [| reflexivity].
    intros _. right. intros i Hi. apply lastIndexOf_last. lia.
Qed.

(** X25: when the selection stops short of the end of the name, the item is
    a file, the selection is not empty, and it stops right before the last
    dot of the name: the character at its end is a dot and no dot follows,
    so what is left out is the extension and nothing else. *)
Theorem selection_excludes_extension (stat : ExplorerItem) :
  range_end (selection stat) < Z.of_nat (String.length (name stat)) ->
  isDirectory stat = false /\
  0 < range_end (selection stat) /\
  String.get (Z.to_nat (range_end (selection stat))) (name stat) = Some dot /\
  (forall i, range_end (selection stat) < Z.of_nat i ->
     String.get i (name stat) <> Some dot).
Proof.
  unfold selection. cbn [range_end].
  destruct (Z.ltb_spec 0 (lastIndexOf dot (name stat))) as [Hdot | Hnodot];
    destruct (isDirectory stat); cbn [andb negb]; try lia.
  intros _. split; [reflexivity |]. split; [exact Hdot |]. split.
  - apply lastIndexOf_found. lia.
  - intros i. apply lastIndexOf_last.
Qed.

End Selection.

Lemma selection_excludes_extension_witness :
  FilesRendererView.range_end (FilesRendererView.selection Examples.file_old)
    = 3 /\
  String.get 3 "old.ts" = Some FilesRendererView.dot.
Proof.
  destruct (selection_excludes_extension Examples.file_old) as (_ & _ & Hdot & _).
  - vm_compute. reflexivity.
  - split; [reflexivity | exact Hdot].
Defined.

Lemma compare_modified_groups_witness :
  let this := Examples.sorter FileSorter.SortModified in
  @FileSorter.compare Examples.caseless this Examples.dir_B Examples.file_new
    = Some (-1) /\
  @FileSorter.compare Examples.caseless this Examples.file_new Examples.dir_B
    = Some 1.
Proof.
  intros this.
  apply (@compare_modified_groups Examples.caseless this Examples.dir_B
           Examples.file_new); reflexivity.
Defined.

(** ** The input boxes of a row *)

Section RowBoxes.

Import FilesRenderer FilesRendererView FilesRendererRow.

Variable this : Renderer.
Variable getEditableData : ExplorerItem -> option IEditableData.




End RowBoxes.

